(** * Rules generation strategies of the AI rules builder

    A shallow embedding of
    [src/services/rules-builder/rules-generation-strategies/SingleFileRulesStrategy.ts]
    and of [MultiFileRulesStrategy.ts], with the properties the specification
    states about them.

    The strategies are effectful TypeScript: they receive references to the
    caller's arrays and records, keep local variables that a callback closure
    updates, and push onto a local array.  They are modelled in a small state
    monad over the caller's objects and the locals of the running function.
    The builders of [markdown-builders/index.ts] and the selection store lie
    outside the two strategy files: the former are parameters or follow the
    specification's words, the latter follows the specification's words.
    The first half of the file holds the definitions, the second half the
    lemmas and theorems. *)

From stdpp Require Import base list strings gmap.

#[local] Set Warnings "-clear-no-such-hyp".

(** ** Data model *)

(** [Layer], [Stack] and [Library] are string enums of [data/dictionaries.ts];
    at run time their values are plain strings. *)
Definition Layer := string.
Definition Stack := string.
Definition Library := string.

Module RulesBuilderTypes.
Record RulesContent := mkRulesContent {
  markdown : string;
  label : string;
  fileName : string;
}.
End RulesBuilderTypes.
Export RulesBuilderTypes.

(** The objects both strategies receive by reference.  [stacksByLayer] is a
    [Record<Layer, Stack[]>]: its entries are kept in the order
    [Object.entries] lists them.  [librariesByStack] is a
    [Record<Stack, Library[]>], indexed by a [Stack]. *)
Record Inputs := mkInputs {
  selectedLibraries : list Library;
  stacksByLayer : list (Layer * list Stack);
  librariesByStack : Stack → list Library;
}.

(** What a run does with the groupings, in order: it starts a traversal, and
    the traversal invokes its callback on a Library.  The events are kept
    in a log beside the caller's objects; the log is not a variable of the
    program. *)
Inductive Event :=
  | Traverse
  | OnLibrary (layer : Layer) (stack : Stack) (library : Library).

(** The state a call runs in.  [generateRules] receives references to the
    three objects of [inputs] and hands the two groupings on by reference;
    every reference of a run points into [inputs]. *)
Record World := mkWorld {
  inputs : Inputs;
  trace : list Event;
}.

(** ** The monad of a running function

    [Run F A]: a computation with locals of type [F] that returns an [A]. *)
Definition Run (F A : Type) : Type := F → World → A * F * World.

Global Instance Run_ret {F} : MRet (Run F) := λ A a f w, (a, f, w).

Global Instance Run_bind {F} : MBind (Run F) :=
  λ A B k c f w, let '(a, f', w') := c f w in k a f' w'.

Definition result {F A} (r : A * F * World) : A := r.1.1.

Definition world {F A} (r : A * F * World) : World := r.2.

(** Reading and assigning the locals. *)
Definition getLocals {F} : Run F F := λ f w, (f, f, w).

Definition assign {F} (upd : F → F) : Run F unit := λ f w, (tt, upd f, w).

(** Reading the caller's objects. *)
Definition readInputs {F} : Run F Inputs := λ f w, (inputs w, f, w).

Definition logged (w : World) (es : list Event) : World :=
  mkWorld (inputs w) (trace w ++ es).

Definition logEvent {F} (e : Event) : Run F unit :=
  λ f w, (tt, f, logged w [e]).

(** A block with locals of its own, initialised to [init]; the locals of the
    enclosing function are out of its reach. *)
Definition withLocals {F G A} (init : G) (body : Run G A) : Run F A :=
  λ f w, let '(a, _, w') := body init w in (a, f, w').

(** [Array.prototype.forEach]. *)
Fixpoint forEach {F A} (xs : list A) (body : A → Run F unit) : Run F unit :=
  match xs with
  | [] => mret tt
  | x :: xs' => body x ;; forEach xs' body
  end.

Definition when {F} (c : bool) (body : Run F unit) : Run F unit :=
  if c then body else mret tt.

(** The line feed, written ['\n'] in the source. *)
Definition LF : string := String (Ascii.ascii_of_nat 10) "".

(** JavaScript truthiness of a string. *)
Definition truthy (s : string) : bool := negb (String.eqb s "").

(** ** The markdown builders

    [markdown-builders/index.ts] is imported by both strategies.  The text
    each builder produces is a parameter of the development. *)
Class MarkdownBuilders := {
  createProjectMarkdown : string → string → string;
  createProjectRulesContent : string → string → RulesContent;
  emptyProjectDocument : string → string → RulesContent;
  (** returns [{ label, fileName }] *)
  createLibraryFileMetadata : Layer → Stack → Library → string * string;
  layerHeading : Layer → string;
  stackHeading : Stack → string;
  libraryContent : Library → string;
}.

Section Builders.
Context `{MarkdownBuilders}.

(** Modelled from the spec: [createEmptyProjectRulesContent] is imported from
    the markdown builders; it "produces a single fallback document when
    Selection is empty". *)
Definition createEmptyProjectRulesContent
    (projectName projectDescription : string) : list RulesContent :=
  [emptyProjectDocument projectName projectDescription].

(** Modelled from the spec: [renderLibrarySection] is imported from the
    markdown builders.  "When includeLayerHeader is true, emit a Layer-level
    heading before any Stack content.  When includeStackHeader is true, emit a
    Stack-level heading before the Library content." *)
Definition renderLibrarySection (layer : Layer) (stack : Stack)
    (library : Library) (includeLayerHeader includeStackHeader : bool)
    : string :=
  (if includeLayerHeader then layerHeading layer else "") +:+
  (if includeStackHeader then stackHeading stack else "") +:+
  libraryContent library.

(** Modelled from the spec: [iterateLayersStacksLibraries] is imported from the
    markdown builders.  It visits the Libraries "grouped by Layer then Stack",
    and "for each visited Library the callback receives
    (layer, stack, library)". *)
Definition iterateLayersStacksLibraries {F}
    (onLibrary : Layer → Stack → Library → Run F unit) : Run F unit :=
  logEvent Traverse ;;
  i ← readInputs ;
  forEach (stacksByLayer i) (λ '(layer, stacks),
    forEach stacks (λ stack,
      i ← readInputs ;
      forEach (librariesByStack i stack) (λ library,
        logEvent (OnLibrary layer stack library) ;;
        onLibrary layer stack library))).

End Builders.

(** ** SingleFileRulesStrategy *)
Module SingleFileRulesStrategy.

(** The [let] variables of [generateLibraryMarkdown], captured by its
    callback. *)
Record Locals := mkLocals {
  markdown : string;
  previousLayer : string;
  previousStack : string;
}.

Section Strategy.
Context `{MarkdownBuilders}.

Definition onLibrary (layer : Layer) (stack : Stack) (library : Library)
    : Run Locals unit :=
  v ← getLocals ;
  let includeLayerHeader := negb (String.eqb layer (previousLayer v)) in
  let includeStackHeader := negb (String.eqb stack (previousStack v)) in
  (* Add spacing between stacks when not starting a new layer *)
  when (includeStackHeader && negb includeLayerHeader
          && truthy (previousStack v))
    (assign (λ v, mkLocals (markdown v +:+ LF)
                           (previousLayer v) (previousStack v))) ;;
  assign (λ v, mkLocals
    (markdown v +:+
       renderLibrarySection layer stack library
         includeLayerHeader includeStackHeader)
    (previousLayer v) (previousStack v)) ;;
  assign (λ v, mkLocals (markdown v) layer (previousStack v)) ;;
  assign (λ v, mkLocals (markdown v) (previousLayer v) stack).

Definition generateLibraryMarkdown {F} : Run F string :=
  withLocals (mkLocals "" "" "")
    (iterateLayersStacksLibraries onLibrary ;;
     v ← getLocals ;
     mret (markdown v)).

Definition generateRules {F} (projectName projectDescription : string)
    : Run F (list RulesContent) :=
  i ← readInputs ;
  if Nat.eqb (length (selectedLibraries i)) 0 then
    mret (createEmptyProjectRulesContent projectName projectDescription)
  else
    libraryMarkdown ← generateLibraryMarkdown ;
    let markdown :=
      createProjectMarkdown projectName projectDescription +:+ libraryMarkdown in
    mret [mkRulesContent markdown "All Rules" "rules.mdc"].

End Strategy.
End SingleFileRulesStrategy.

(** ** MultiFileRulesStrategy *)
Module MultiFileRulesStrategy.

(** The local array of [generateRules], which the callback pushes onto. *)
Record Locals := mkLocals {
  markdowns : list RulesContent;
}.

Section Strategy.
Context `{MarkdownBuilders}.

Definition buildRulesContent (layer : Layer) (stack : Stack)
    (library : Library) : RulesContent :=
  let '(label, fileName) := createLibraryFileMetadata layer stack library in
  let markdown := renderLibrarySection layer stack library true true in
  mkRulesContent markdown label fileName.

Definition generateRules {F} (projectName projectDescription : string)
    : Run F (list RulesContent) :=
  i ← readInputs ;
  if Nat.eqb (length (selectedLibraries i)) 0 then
    mret (createEmptyProjectRulesContent projectName projectDescription)
  else
    withLocals
      (mkLocals [createProjectRulesContent projectName projectDescription])
      (iterateLayersStacksLibraries (λ layer stack library,
         assign (λ v,
           mkLocals (markdowns v ++ [buildRulesContent layer stack library]))) ;;
       v ← getLocals ;
       mret (markdowns v)).

End Strategy.
End MultiFileRulesStrategy.

(** ** What a run computes *)

(** One invocation of the traversal's callback. *)
Definition Visit : Type := Layer * Stack * Library.

Definition layerOf (x : Visit) : Layer := x.1.1.

Definition stackOf (x : Visit) : Stack := x.1.2.

(** The visits of a traversal, in order. *)
Definition traversal (i : Inputs) : list Visit :=
  '(layer, stacks) ← stacksByLayer i ;
  stack ← stacks ;
  library ← librariesByStack i stack ;
  [(layer, stack, library)].

Definition visitEvent (v : Visit) : Event :=
  let '(layer, stack, library) := v in OnLibrary layer stack library.

Definition joined (parts : list string) : string := foldr String.app "" parts.

(** One fragment of the Single-File document per visited Library: an optional
    blank-line separator, then the call of [renderLibrarySection] with its two
    header flags. *)
Record Fragment := mkFragment {
  separator : bool;
  layerHeader : bool;
  stackHeader : bool;
  visit : Visit;
}.

Section Fragments.
Context `{MarkdownBuilders}.
Import SingleFileRulesStrategy.

Definition renderFragment (fr : Fragment) : string :=
  let '(layer, stack, library) := visit fr in
  (if separator fr then LF else "") +:+
  renderLibrarySection layer stack library (layerHeader fr) (stackHeader fr).

(** The fragment the callback appends, given the values of [previousLayer]
    and [previousStack] it finds. *)
Definition emitted (previousLayer previousStack : string) (x : Visit) : Fragment :=
  let '(layer, stack, library) := x in
  let includeLayerHeader := negb (String.eqb layer previousLayer) in
  let includeStackHeader := negb (String.eqb stack previousStack) in
  mkFragment
    (includeStackHeader && negb includeLayerHeader && truthy previousStack)
    includeLayerHeader includeStackHeader x.

Fixpoint fragments (previousLayer previousStack : string) (xs : list Visit)
    : list Fragment :=
  match xs with
  | [] => []
  | x :: xs' =>
      emitted previousLayer previousStack x :: fragments (layerOf x) (stackOf x) xs'
  end.

(** What one invocation of the Single-File callback does to the locals. *)
Definition onLibrary_locals (v : Locals) (x : Visit) : Locals :=
  mkLocals
    (SingleFileRulesStrategy.markdown v +:+
       renderFragment (emitted (previousLayer v) (previousStack v) x))
    (layerOf x) (stackOf x).

(** The library part of the Single-File document: the fragments, from empty
    [previousLayer] and [previousStack]. *)
Definition libraryMarkdown (i : Inputs) : string :=
  joined (renderFragment <$> fragments "" "" (traversal i)).

(** What one invocation of the Multi-File callback does to the locals. *)
Definition push_locals (v : MultiFileRulesStrategy.Locals) (x : Visit)
    : MultiFileRulesStrategy.Locals :=
  MultiFileRulesStrategy.mkLocals
    (MultiFileRulesStrategy.markdowns v ++
       [MultiFileRulesStrategy.buildRulesContent (layerOf x) (stackOf x) x.2]).

End Fragments.

(** ** The header-emission rule, as the specification words it

    "Emit a Layer header only on first encounter of that Layer in traversal
    order; emit a Stack header only on first encounter of that Stack; insert
    one blank-line separator before a new Stack's content when it is not also
    the start of a new Layer." *)
Fixpoint headerPlan (seenLayers : list Layer) (seenStacks : list Stack)
    (xs : list Visit) : list Fragment :=
  match xs with
  | [] => []
  | x :: xs' =>
      let newLayer := bool_decide (layerOf x ∉ seenLayers) in
      let newStack := bool_decide (stackOf x ∉ seenStacks) in
      mkFragment (newStack && negb newLayer) newLayer newStack x
        :: headerPlan (layerOf x :: seenLayers) (stackOf x :: seenStacks) xs'
  end.

(** The Layer headings and the Stack headings a list of fragments carries. *)
Definition layerHeadings (frs : list Fragment) : list Layer :=
  (λ fr, layerOf (visit fr)) <$> filter (λ fr, layerHeader fr = true) frs.

Definition stackHeadings (frs : list Fragment) : list Stack :=
  (λ fr, stackOf (visit fr)) <$> filter (λ fr, stackHeader fr = true) frs.

(** The groupings as the Selection Model derives them from the taxonomy: a
    Layer is a key of the record once, a Stack is listed once and under one
    Layer, and no identifier is the empty string. *)
Record wellFormed (i : Inputs) : Prop := {
  layers_NoDup : NoDup (stacksByLayer i).*1;
  stacks_NoDup : NoDup (stacksByLayer i ≫= snd);
  layers_named : ∀ layer, layer ∈ (stacksByLayer i).*1 → layer ≠ "";
  stacks_named : ∀ stack, stack ∈ (stacksByLayer i ≫= snd) → stack ≠ "";
}.

(** The Layers and the Stacks with at least one Library, in declared order. *)
Definition visitedLayers (i : Inputs) : list Layer :=
  (filter (λ e, length (e.2 ≫= librariesByStack i) ≠ 0) (stacksByLayer i)).*1.

Definition visitedStacks (i : Inputs) : list Stack :=
  filter (λ stack, length (librariesByStack i stack) ≠ 0) (stacksByLayer i ≫= snd).

(** ** First encounters

    The source decides "new Layer" and "new Stack" by comparing with the
    previous visit; the specification speaks of the first encounter.  The two
    agree along a list of keys that comes in blocks. *)

(** Along [ks], starting with previous key [p] and the keys [seen] so far,
    a key equals the previous one exactly when it was seen before. *)
Inductive Grouped : string → list string → list string → Prop :=
  | Grouped_nil p seen : Grouped p seen []
  | Grouped_cons p seen k ks :
      k ≠ "" → (k = p ↔ k ∈ seen) → Grouped k (k :: seen) ks →
      Grouped p seen (k :: ks).

(** The keys met for the first time, in order. *)
Fixpoint firsts (seen : list string) (ks : list string) : list string :=
  match ks with
  | [] => []
  | k :: ks' =>
      if bool_decide (k ∈ seen) then firsts (k :: seen) ks'
      else k :: firsts (k :: seen) ks'
  end.

(** Blocks: each element of [es] contributes its key [size] times. *)
Definition blocks {E} (key : E → string) (size : E → nat) (es : list E)
    : list string :=
  e ← es ; replicate (size e) (key e).

(** ** The selection-state store *)
Module SelectionStore.

(** Modelled from the spec: the store is outside the two strategy files.  Its
    state holds the "set of currently chosen Libraries" and the snapshot
    [originalLibraries] "used only for dirty-state comparison". *)
Record State := mkState {
  selectedLibraries : gset Library;
  originalLibraries : gset Library;
}.

(** Modelled from the spec: [toggleLibrary] "flips membership of a Library in
    Selection". *)
Definition toggleLibrary (id : Library) (st : State) : State :=
  mkState
    (if decide (id ∈ selectedLibraries st)
     then selectedLibraries st ∖ {[id]}
     else selectedLibraries st ∪ {[id]})
    (originalLibraries st).

(** Modelled from the spec: [loadOriginal] "replaces both current Selection and
    originalLibraries with the given set". *)
Definition loadOriginal (libraries : gset Library) (st : State) : State :=
  mkState libraries libraries.

(** Modelled from the spec: [isDirty] is "true iff the set of currently selected
    Library identifiers differs (set inequality, not order) from
    originalLibraries". *)
Definition isDirty (st : State) : bool :=
  bool_decide (selectedLibraries st ≠ originalLibraries st).

(** A store whose selection has one Library more than its baseline. *)
Definition dirtyState : State :=
  mkState {["react-query"; "zustand"]} {["react-query"]}.

End SelectionStore.

(** ** Sample inputs, for running the strategies *)
Definition sampleBuilders : MarkdownBuilders := {|
  createProjectMarkdown n d := "# " +:+ n +:+ LF +:+ d +:+ LF;
  createProjectRulesContent n d :=
    mkRulesContent ("# " +:+ n +:+ LF +:+ d +:+ LF) "Project" "project.mdc";
  emptyProjectDocument n d :=
    mkRulesContent ("# " +:+ n +:+ LF +:+ d +:+ LF +:+ "---") "Project" "project.mdc";
  createLibraryFileMetadata l s b :=
    (l +:+ " - " +:+ s +:+ " - " +:+ b, l +:+ "-" +:+ s +:+ "-" +:+ b +:+ ".mdc");
  layerHeading l := "## " +:+ l +:+ LF;
  stackHeading s := "### " +:+ s +:+ LF;
  libraryContent b := "- " +:+ b +:+ LF;
|}.

Definition sampleLibraries (stack : Stack) : list Library :=
  if String.eqb stack "React" then ["react-query"; "zustand"]
  else if String.eqb stack "Vue" then ["pinia"]
  else if String.eqb stack "Express" then ["express"]
  else [].

(** Libraries under Layers [Frontend, Frontend, Frontend, Backend] and Stacks
    [React, React, Vue, Express], selected in another order. *)
Definition sampleInputs : Inputs := {|
  selectedLibraries := ["express"; "pinia"; "zustand"; "react-query"];
  stacksByLayer := [("Frontend", ["React"; "Vue"]); ("Backend", ["Express"])];
  librariesByStack := sampleLibraries;
|}.

Definition sampleWorld : World := mkWorld sampleInputs [].

Definition emptySelectionWorld : World :=
  mkWorld (mkInputs [] (stacksByLayer sampleInputs) (librariesByStack sampleInputs)) [].

(** Groupings that list a Stack twice: not what the Selection Model derives. *)
Definition repeatedStackInputs : Inputs := {|
  selectedLibraries := ["react-query"; "zustand"; "pinia"];
  stacksByLayer := [("Frontend", ["React"; "Vue"; "React"])];
  librariesByStack := sampleLibraries;
|}.

(** ** The layout of the Single-File document *)

(** The key of the last element of [xs], or [d] when there is none: the value
    [previousLayer] (or [previousStack]) holds after the visits [xs]. *)
Definition lastKey {A} (key : A → string) (d : string) (xs : list A) : string :=
  foldl (λ _ x, key x) d xs.

(** The groupings of [i] with other entries of [stacksByLayer]. *)
Definition withStacksByLayer (i : Inputs) (entries : list (Layer * list Stack))
    : Inputs :=
  mkInputs (selectedLibraries i) entries (librariesByStack i).

(** The number of Libraries the groupings list, Stack by Stack. *)
Definition libraryCount (i : Inputs) : nat :=
  sum_list ((λ e, sum_list ((λ stack, length (librariesByStack i stack)) <$> e.2))
              <$> stacksByLayer i).

Section Layout.
Context `{MarkdownBuilders}.

(** A Stack's heading and the content of its Libraries. *)
Definition stackSection (i : Inputs) (stack : Stack) : string :=
  stackHeading stack +:+ joined (libraryContent <$> librariesByStack i stack).

(** A Layer's heading and the sections of its Stacks that have a Library,
    a line feed between two of them; nothing for a Layer without Library. *)
Definition layerSection (i : Inputs) (layer : Layer) (stacks : list Stack) : string :=
  match filter (λ stack, librariesByStack i stack ≠ []) stacks with
  | [] => ""
  | stack :: rest =>
      layerHeading layer +:+ stackSection i stack +:+
      joined ((λ stack, LF +:+ stackSection i stack) <$> rest)
  end.

Definition layout (i : Inputs) : string :=
  joined ((λ '(layer, stacks), layerSection i layer stacks) <$> stacksByLayer i).

End Layout.

(** Two Libraries, each in a Layer and a Stack of its own. *)
Definition separateLayersWorld : World :=
  mkWorld (mkInputs ["express"; "pinia"]
             [("Frontend", ["Vue"]); ("Backend", ["Express"])] sampleLibraries) [].

(** * Lemmas and theorems *)

(** ** The log *)
Lemma logged_nil w : logged w [] = w.
Proof. destruct w. unfold logged. simpl. by rewrite app_nil_r. Qed.

Lemma logged_logged w es es' : logged (logged w es) es' = logged w (es ++ es').
Proof. unfold logged. simpl. by rewrite app_assoc. Qed.

Lemma inputs_logged w es : inputs (logged w es) = inputs w.
Proof. done. Qed.

(** ** The traversal, run with a callback that only updates the locals *)
Section Traversal.
Context `{MarkdownBuilders} {F : Type}.
Variable onLibrary : Layer → Stack → Library → Run F unit.
Variable step : F → Visit → F.
Hypothesis onLibrary_step :
  ∀ layer stack library f w,
    onLibrary layer stack library f w = (tt, step f (layer, stack, library), w).

Lemma forEach_libraries layer stack (libraries : list Library) f w :
  forEach libraries (λ library,
      logEvent (OnLibrary layer stack library) ;;
      onLibrary layer stack library) f w =
    (tt, foldl step f (library ← libraries ; [(layer, stack, library)]),
     logged w (visitEvent <$> (library ← libraries ; [(layer, stack, library)]))).
Proof.
  revert f w. induction libraries as [|b bs IH]; intros f w; simpl.
  - by rewrite logged_nil.
  - unfold mbind at 1, Run_bind. unfold logEvent at 1.
    unfold mbind at 1, Run_bind. rewrite onLibrary_step, IH, logged_logged. done.
Qed.

Lemma forEach_stacks layer (stacks : list Stack) f w :
  forEach stacks (λ stack,
      i ← readInputs ;
      forEach (librariesByStack i stack) (λ library,
        logEvent (OnLibrary layer stack library) ;;
        onLibrary layer stack library)) f w =
    (tt,
     foldl step f
       (stack ← stacks ; library ← librariesByStack (inputs w) stack ;
        [(layer, stack, library)]),
     logged w
       (visitEvent <$>
          (stack ← stacks ; library ← librariesByStack (inputs w) stack ;
           [(layer, stack, library)]))).
Proof.
  revert f w. induction stacks as [|s ss IH]; intros f w.
  - simpl. by rewrite logged_nil.
  - cbn [forEach]. unfold mbind at 1, Run_bind. unfold mbind at 1, Run_bind.
    unfold readInputs at 1. rewrite forEach_libraries, IH.
    rewrite inputs_logged, logged_logged.
    by rewrite !bind_cons, foldl_app, fmap_app.
Qed.

Lemma forEach_entries (entries : list (Layer * list Stack)) f w :
  forEach entries (λ '(layer, stacks),
      forEach stacks (λ stack,
        i ← readInputs ;
        forEach (librariesByStack i stack) (λ library,
          logEvent (OnLibrary layer stack library) ;;
          onLibrary layer stack library))) f w =
    (tt,
     foldl step f
       ('(layer, stacks) ← entries ; stack ← stacks ;
        library ← librariesByStack (inputs w) stack ; [(layer, stack, library)]),
     logged w
       (visitEvent <$>
          ('(layer, stacks) ← entries ; stack ← stacks ;
           library ← librariesByStack (inputs w) stack ;
           [(layer, stack, library)]))).
Proof.
  revert f w. induction entries as [|[l ss] es IH]; intros f w.
  - simpl. by rewrite logged_nil.
  - cbn [forEach]. unfold mbind at 1, Run_bind. rewrite forEach_stacks, IH.
    rewrite inputs_logged, logged_logged.
    by rewrite !bind_cons, foldl_app, fmap_app.
Qed.

Lemma iterateLayersStacksLibraries_run f w :
  iterateLayersStacksLibraries onLibrary f w =
    (tt, foldl step f (traversal (inputs w)),
     logged w (Traverse :: (visitEvent <$> traversal (inputs w)))).
Proof.
  unfold iterateLayersStacksLibraries.
  unfold mbind at 1, Run_bind. unfold logEvent at 1.
  unfold mbind at 1, Run_bind. unfold readInputs at 1.
  rewrite forEach_entries, inputs_logged, logged_logged. done.
Qed.

End Traversal.

(** ** Strings *)
Lemma string_app_nil_r (s : string) : s +:+ "" = s.
Proof.
  induction s as [|a s IH]; [done|].
  change (String a s +:+ "") with (String a (s +:+ "")). by rewrite IH.
Qed.

Lemma string_app_cons a (s t : string) : String a s +:+ t = String a (s +:+ t).
Proof. reflexivity. Qed.

Lemma string_app_assoc (s t u : string) : (s +:+ t) +:+ u = s +:+ (t +:+ u).
Proof.
  induction s as [|a s IH]; [done|].
  by rewrite !string_app_cons, IH.
Qed.

(** ** The Single-File strategy, run *)
Section SingleFileRun.
Context `{MarkdownBuilders}.
Import SingleFileRulesStrategy.

Lemma onLibrary_run layer stack library v w :
  onLibrary layer stack library v w =
    (tt, onLibrary_locals v (layer, stack, library), w).
Proof.
  unfold onLibrary, onLibrary_locals, emitted, renderFragment. simpl.
  destruct v as [md pl ps]; simpl.
  unfold mbind, Run_bind, getLocals. simpl.
  destruct (negb (stack =? ps)%string && negb (negb (layer =? pl)%string)
            && truthy ps); simpl.
  - unfold assign. simpl. by rewrite string_app_assoc.
  - unfold assign. simpl. done.
Qed.

Lemma foldl_onLibrary_locals (xs : list Visit) v :
  SingleFileRulesStrategy.markdown (foldl onLibrary_locals v xs) =
    SingleFileRulesStrategy.markdown v +:+
      joined (renderFragment <$> fragments (previousLayer v) (previousStack v) xs).
Proof.
  revert v. induction xs as [|x xs IH]; intros [md pl ps]; simpl.
  - unfold joined. simpl. by rewrite string_app_nil_r.
  - rewrite IH. simpl. unfold joined. simpl. by rewrite string_app_assoc.
Qed.

Lemma generateLibraryMarkdown_run {F} (f : F) w :
  generateLibraryMarkdown f w =
    (libraryMarkdown (inputs w), f,
     logged w (Traverse :: (visitEvent <$> traversal (inputs w)))).
Proof.
  unfold generateLibraryMarkdown, withLocals.
  unfold mbind at 1, Run_bind.
  rewrite (iterateLayersStacksLibraries_run _ _ onLibrary_run).
  unfold mbind, Run_bind, getLocals, mret, Run_ret.
  by rewrite foldl_onLibrary_locals.
Qed.

Lemma SingleFile_generateRules_run {F} projectName projectDescription (f : F) w :
  generateRules projectName projectDescription f w =
    if decide (selectedLibraries (inputs w) = []) then
      (createEmptyProjectRulesContent projectName projectDescription, f, w)
    else
      ([mkRulesContent
          (createProjectMarkdown projectName projectDescription
             +:+ libraryMarkdown (inputs w))
          "All Rules" "rules.mdc"], f,
       logged w (Traverse :: (visitEvent <$> traversal (inputs w)))).
Proof.
  unfold generateRules. unfold mbind at 1, Run_bind. unfold readInputs at 1.
  destruct (selectedLibraries (inputs w)) as [|b bs]; simpl; [done|].
  unfold mbind, Run_bind. by rewrite generateLibraryMarkdown_run.
Qed.

Lemma fragments_parts previousLayer previousStack (xs : list Visit) :
  Forall2
    (λ part x, ∃ sep includeLayerHeader includeStackHeader : bool,
       part = (if sep then LF else "") +:+
              renderLibrarySection (layerOf x) (stackOf x) x.2
                includeLayerHeader includeStackHeader)
    (renderFragment <$> fragments previousLayer previousStack xs) xs.
Proof.
  revert previousLayer previousStack.
  induction xs as [|[[l s] b] xs IH]; intros pl ps; simpl; constructor.
  - unfold renderFragment, emitted. simpl. eauto.
  - apply IH.
Qed.

End SingleFileRun.

(** ** The Multi-File strategy, run *)
Section MultiFileRun.
Context `{MarkdownBuilders}.
Import MultiFileRulesStrategy.

Lemma foldl_push_locals (xs : list Visit) v :
  markdowns (foldl push_locals v xs) =
    markdowns v ++ ((λ x, buildRulesContent (layerOf x) (stackOf x) x.2) <$> xs).
Proof.
  revert v. induction xs as [|x xs IH]; intros v; simpl.
  - by rewrite app_nil_r.
  - rewrite IH. simpl. by rewrite <- app_assoc.
Qed.

Lemma MultiFile_generateRules_run {F} projectName projectDescription (f : F) w :
  generateRules projectName projectDescription f w =
    if decide (selectedLibraries (inputs w) = []) then
      (createEmptyProjectRulesContent projectName projectDescription, f, w)
    else
      (createProjectRulesContent projectName projectDescription
         :: ((λ x, buildRulesContent (layerOf x) (stackOf x) x.2)
               <$> traversal (inputs w)),
       f,
       logged w (Traverse :: (visitEvent <$> traversal (inputs w)))).
Proof.
  unfold generateRules. unfold mbind at 1, Run_bind. unfold readInputs at 1.
  destruct (selectedLibraries (inputs w)) as [|b bs]; simpl; [done|].
  unfold withLocals. unfold mbind at 1, Run_bind.
  rewrite (iterateLayersStacksLibraries_run _ push_locals) by done.
  unfold mbind, Run_bind, getLocals, mret, Run_ret.
  by rewrite foldl_push_locals.
Qed.

(** The file name of a Library's document is the one
    [createLibraryFileMetadata] returns for its triple. *)
Lemma buildRulesContent_fileName layer stack library :
  fileName (buildRulesContent layer stack library) =
    (createLibraryFileMetadata layer stack library).2.
Proof.
  unfold buildRulesContent. by destruct (createLibraryFileMetadata layer stack library).
Qed.

End MultiFileRun.

(** ** First encounters in a list that comes in blocks *)
Section FirstEncounter.
Context {E : Type} (key : E → string) (size : E → nat).

Lemma Grouped_replicate_app k n rest p seen :
  k ≠ "" → (k = p ↔ k ∈ seen) →
  (∀ p' seen', p' = p ∨ p' = k → (∀ x, x ∈ seen' → x ∈ seen ∨ x = k) →
     Grouped p' seen' rest) →
  Grouped p seen (replicate n k ++ rest).
Proof.
  intros Hk. revert p seen. induction n as [|n IH]; intros p seen Hp Hrest.
  - apply Hrest; auto.
  - simpl. constructor; [done..|]. apply IH.
    + split; [set_solver|done].
    + intros p' seen' Hp' Hseen'. apply Hrest; [naive_solver|].
      intros x Hx. apply Hseen' in Hx. set_solver.
Qed.

Lemma Grouped_blocks es p seen :
  NoDup (key <$> es) →
  (∀ e, e ∈ es → key e ≠ "" ∧ key e ≠ p ∧ key e ∉ seen) →
  Grouped p seen (blocks key size es).
Proof.
  revert p seen. induction es as [|e es IH]; intros p seen Hnd Hfresh.
  - constructor.
  - unfold blocks. rewrite bind_cons. fold (blocks key size es).
    rewrite fmap_cons in Hnd. apply NoDup_cons in Hnd as [Hnotin Hnd].
    destruct (Hfresh e) as (Hne & Hp & Hseen); [set_solver|].
    apply Grouped_replicate_app; [done|naive_solver|].
    intros p' seen' Hp' Hseen'. apply IH; [done|].
    intros e' He'. destruct (Hfresh e') as (Hne' & Hp'' & Hs'); [set_solver|].
    assert (key e' ≠ key e).
    { intros Heq. apply Hnotin. rewrite <- Heq. by apply list_elem_of_fmap_2. }
    split_and!; [done|naive_solver|].
    intros Hin. apply Hseen' in Hin. naive_solver.
Qed.

Lemma firsts_replicate_app k n rest seen r :
  k ∈ seen →
  (∀ seen', (∀ x, x ∈ seen' → x ∈ seen) → firsts seen' rest = r) →
  firsts seen (replicate n k ++ rest) = r.
Proof.
  revert seen. induction n as [|n IH]; intros seen Hk Hrest.
  - by apply Hrest.
  - simpl. rewrite bool_decide_eq_true_2 by done.
    apply IH; [set_solver|].
    intros seen' Hsub. apply Hrest. set_solver.
Qed.

Lemma firsts_blocks es seen :
  NoDup (key <$> es) →
  (∀ e, e ∈ es → key e ∉ seen) →
  firsts seen (blocks key size es) = key <$> filter (λ e, size e ≠ 0) es.
Proof.
  revert seen. induction es as [|e es IH]; intros seen Hnd Hfresh; [done|].
  unfold blocks. rewrite bind_cons. fold (blocks key size es).
  rewrite fmap_cons in Hnd. apply NoDup_cons in Hnd as [Hnotin Hnd].
  rewrite filter_cons. destruct (size e) as [|n] eqn:Hsize.
  - rewrite decide_False by (intros Hc; by apply Hc).
    simpl. apply IH; [done|]. intros e' He'. apply Hfresh. set_solver.
  - rewrite decide_True by done. simpl.
    rewrite bool_decide_eq_false_2 by (apply Hfresh; set_solver).
    f_equal. apply firsts_replicate_app; [set_solver|].
    intros seen' Hsub. apply IH; [done|].
    intros e' He' Hin. apply Hsub in Hin.
    apply elem_of_cons in Hin as [Heq|Hin].
    + apply Hnotin. rewrite <- Heq. by apply list_elem_of_fmap_2.
    + by apply (Hfresh e'); [set_solver|].
Qed.

Lemma NoDup_fmap_filter (P : E → Prop) `{∀ e, Decision (P e)} es :
  NoDup (key <$> es) → NoDup (key <$> filter P es).
Proof.
  induction es as [|e es IH]; intros Hnd; [constructor|].
  rewrite fmap_cons in Hnd. apply NoDup_cons in Hnd as [Hnotin Hnd].
  rewrite filter_cons. case_decide; [|by apply IH].
  simpl. apply NoDup_cons. split; [|by apply IH].
  intros Hin. apply Hnotin.
  apply list_elem_of_fmap in Hin as (e' & -> & He').
  apply list_elem_of_fmap_2. by apply list_elem_of_filter in He' as [_ ?].
Qed.

End FirstEncounter.

(** ** The rule of the source and the rule of the specification *)
Section HeaderRule.
Context `{MarkdownBuilders}.

(** Where "equal to the previous key" and "seen before" coincide, the
    fragments the callback appends are those of the header-emission rule. *)
Lemma fragments_headerPlan xs previousLayer previousStack seenLayers seenStacks :
  Grouped previousLayer seenLayers (layerOf <$> xs) →
  Grouped previousStack seenStacks (stackOf <$> xs) →
  (previousStack = "" → previousLayer = "") →
  fragments previousLayer previousStack xs = headerPlan seenLayers seenStacks xs.
Proof.
  revert previousLayer previousStack seenLayers seenStacks.
  induction xs as [|[[l s] b] xs IH]; intros pl ps sl ss Hl Hs Hempty; [done|].
  simpl in Hl, Hs. inversion Hl as [|? ? ? ? Hln Hlp Hl']; subst.
  inversion Hs as [|? ? ? ? Hsn Hsp Hs']; subst.
  simpl. unfold layerOf, stackOf in *. simpl in *. f_equal.
  - unfold emitted. f_equal.
    + destruct (String.eqb_spec l pl) as [->|Hne], (String.eqb_spec s ps) as [->|Hne'];
        simpl.
      * rewrite (bool_decide_eq_false_2 (ps ∉ ss)) by (intros Hc; apply Hc; by apply Hsp).
        done.
      * rewrite (bool_decide_eq_true_2 (s ∉ ss)) by (intros Hc; apply Hne'; by apply Hsp).
        rewrite (bool_decide_eq_false_2 (pl ∉ sl)) by (intros Hc; apply Hc; by apply Hlp).
        simpl. unfold truthy. destruct (String.eqb_spec ps "") as [->|?]; [|done].
        by specialize (Hempty eq_refl).
      * rewrite (bool_decide_eq_false_2 (ps ∉ ss)) by (intros Hc; apply Hc; by apply Hsp).
        done.
      * rewrite (bool_decide_eq_true_2 (l ∉ sl)) by (intros Hc; apply Hne; by apply Hlp).
        by rewrite andb_false_r.
    + destruct (String.eqb_spec l pl) as [->|Hne]; simpl.
      * by rewrite bool_decide_eq_false_2 by (intros Hc; apply Hc; by apply Hlp).
      * by rewrite bool_decide_eq_true_2 by (intros Hc; apply Hne; by apply Hlp).
    + destruct (String.eqb_spec s ps) as [->|Hne]; simpl.
      * by rewrite bool_decide_eq_false_2 by (intros Hc; apply Hc; by apply Hsp).
      * by rewrite bool_decide_eq_true_2 by (intros Hc; apply Hne; by apply Hsp).
  - apply IH; [done..|]. intros ->. done.
Qed.

End HeaderRule.

Lemma layerHeadings_headerPlan xs seenLayers seenStacks :
  layerHeadings (headerPlan seenLayers seenStacks xs) =
    firsts seenLayers (layerOf <$> xs).
Proof.
  revert seenLayers seenStacks.
  induction xs as [|x xs IH]; intros sl ss; [done|].
  simpl. unfold layerHeadings in *. rewrite filter_cons. simpl.
  destruct (decide (layerOf x ∈ sl)) as [Hin|Hnin].
  - rewrite (bool_decide_eq_true_2 (layerOf x ∈ sl)) by done.
    rewrite (bool_decide_eq_false_2 (layerOf x ∉ sl)) by (intros Hc; by apply Hc).
    rewrite decide_False by done. apply IH.
  - rewrite (bool_decide_eq_false_2 (layerOf x ∈ sl)) by done.
    rewrite (bool_decide_eq_true_2 (layerOf x ∉ sl)) by done.
    rewrite decide_True by done. simpl. f_equal. apply IH.
Qed.

Lemma stackHeadings_headerPlan xs seenLayers seenStacks :
  stackHeadings (headerPlan seenLayers seenStacks xs) =
    firsts seenStacks (stackOf <$> xs).
Proof.
  revert seenLayers seenStacks.
  induction xs as [|x xs IH]; intros sl ss; [done|].
  simpl. unfold stackHeadings in *. rewrite filter_cons. simpl.
  destruct (decide (stackOf x ∈ ss)) as [Hin|Hnin].
  - rewrite (bool_decide_eq_true_2 (stackOf x ∈ ss)) by done.
    rewrite (bool_decide_eq_false_2 (stackOf x ∉ ss)) by (intros Hc; by apply Hc).
    rewrite decide_False by done. apply IH.
  - rewrite (bool_decide_eq_false_2 (stackOf x ∈ ss)) by done.
    rewrite (bool_decide_eq_true_2 (stackOf x ∉ ss)) by done.
    rewrite decide_True by done. simpl. f_equal. apply IH.
Qed.

(** ** The traversal comes in blocks *)
Section TraversalBlocks.
Variable i : Inputs.

Lemma layerOf_libraries layer stack (libraries : list Library) :
  layerOf <$> (library ← libraries ; [(layer, stack, library)]) =
    replicate (length libraries) layer.
Proof. induction libraries as [|b bs IH]; [done|]. simpl. by f_equal. Qed.

Lemma stackOf_libraries layer stack (libraries : list Library) :
  stackOf <$> (library ← libraries ; [(layer, stack, library)]) =
    replicate (length libraries) stack.
Proof. induction libraries as [|b bs IH]; [done|]. simpl. by f_equal. Qed.

Lemma layerOf_stacks layer (stacks : list Stack) :
  layerOf <$> (stack ← stacks ; library ← librariesByStack i stack ;
               [(layer, stack, library)]) =
    replicate (length (stacks ≫= librariesByStack i)) layer.
Proof.
  induction stacks as [|s ss IH]; [done|].
  rewrite !bind_cons, fmap_app, length_app, replicate_add, IH.
  f_equal. apply layerOf_libraries.
Qed.

Lemma stackOf_stacks layer (stacks : list Stack) :
  stackOf <$> (stack ← stacks ; library ← librariesByStack i stack ;
               [(layer, stack, library)]) =
    blocks id (λ stack, length (librariesByStack i stack)) stacks.
Proof.
  induction stacks as [|s ss IH]; [done|].
  unfold blocks in *. rewrite !bind_cons, fmap_app, IH.
  f_equal. apply stackOf_libraries.
Qed.

Lemma layerOf_traversal :
  layerOf <$> traversal i =
    blocks fst (λ e, length (e.2 ≫= librariesByStack i)) (stacksByLayer i).
Proof.
  unfold traversal, blocks.
  induction (stacksByLayer i) as [|[l ss] es IH]; [done|].
  rewrite !bind_cons, fmap_app, IH. f_equal. apply layerOf_stacks.
Qed.

Lemma stackOf_traversal :
  stackOf <$> traversal i =
    blocks id (λ stack, length (librariesByStack i stack))
      (stacksByLayer i ≫= snd).
Proof.
  unfold traversal.
  induction (stacksByLayer i) as [|[l ss] es IH]; [done|].
  rewrite !bind_cons, fmap_app, IH. unfold blocks. rewrite bind_app.
  f_equal. apply stackOf_stacks.
Qed.

Hypothesis wf : wellFormed i.

Lemma Grouped_layers : Grouped "" [] (layerOf <$> traversal i).
Proof.
  rewrite layerOf_traversal. apply Grouped_blocks; [apply wf|].
  intros e He. assert (e.1 ∈ (stacksByLayer i).*1) by by apply list_elem_of_fmap_2.
  split_and!; [by apply (layers_named i wf)..|set_solver].
Qed.

Lemma Grouped_stacks : Grouped "" [] (stackOf <$> traversal i).
Proof.
  rewrite stackOf_traversal. apply Grouped_blocks.
  - rewrite list_fmap_id. apply wf.
  - intros s Hs. unfold id.
    split_and!; [by apply (stacks_named i wf)..|set_solver].
Qed.

Lemma layerHeadings_traversal :
  layerHeadings (headerPlan [] [] (traversal i)) = visitedLayers i.
Proof.
  rewrite layerHeadings_headerPlan, layerOf_traversal.
  apply firsts_blocks; [apply wf|]. set_solver.
Qed.

Lemma stackHeadings_traversal :
  stackHeadings (headerPlan [] [] (traversal i)) = visitedStacks i.
Proof.
  rewrite stackHeadings_headerPlan, stackOf_traversal.
  rewrite firsts_blocks; [by rewrite list_fmap_id| |set_solver].
  rewrite list_fmap_id. apply wf.
Qed.

Lemma NoDup_visitedLayers : NoDup (visitedLayers i).
Proof. apply NoDup_fmap_filter, wf. Qed.

Lemma NoDup_visitedStacks : NoDup (visitedStacks i).
Proof.
  unfold visitedStacks.
  rewrite <- (list_fmap_id (filter _ _)). apply (NoDup_fmap_filter id).
  rewrite list_fmap_id. apply wf.
Qed.

End TraversalBlocks.

(** The Layers and Stacks with a Library are those the traversal visits. *)
Lemma elem_of_visitedLayers i layer :
  layer ∈ visitedLayers i ↔ ∃ stack library, (layer, stack, library) ∈ traversal i.
Proof.
  unfold visitedLayers, traversal. split.
  - intros Hin. apply list_elem_of_fmap in Hin as ([l ss] & -> & Hin).
    apply list_elem_of_filter in Hin as [Hlen Hin]. simpl in *.
    destruct (ss ≫= librariesByStack i) as [|b bs] eqn:Hbs; [done|].
    assert (b ∈ ss ≫= librariesByStack i) as Hb by (rewrite Hbs; left).
    apply list_elem_of_bind in Hb as (s & Hb & Hs).
    exists s, b. apply list_elem_of_bind. exists (l, ss). split; [|done].
    apply list_elem_of_bind. exists s. split; [|done].
    apply list_elem_of_bind. exists b. split; [left|done].
  - intros (s & b & Hin).
    apply list_elem_of_bind in Hin as ([l ss] & Hin & He).
    apply list_elem_of_bind in Hin as (s' & Hin & Hs).
    apply list_elem_of_bind in Hin as (b' & Hin & Hb).
    apply list_elem_of_singleton in Hin. simplify_eq.
    apply list_elem_of_fmap. exists (l, ss). split; [done|].
    apply list_elem_of_filter. split; [|done]. simpl.
    assert (b' ∈ ss ≫= librariesByStack i) as Hin.
    { apply list_elem_of_bind. by exists s'. }
    destruct (ss ≫= librariesByStack i); [by apply elem_of_nil in Hin|done].
Qed.

Lemma elem_of_visitedStacks i stack :
  stack ∈ visitedStacks i ↔ ∃ layer library, (layer, stack, library) ∈ traversal i.
Proof.
  unfold visitedStacks, traversal. split.
  - intros Hin. apply list_elem_of_filter in Hin as [Hlen Hin].
    apply list_elem_of_bind in Hin as ([l ss] & Hin & He). simpl in *.
    destruct (librariesByStack i stack) as [|b bs] eqn:Hbs; [done|].
    exists l, b. apply list_elem_of_bind. exists (l, ss). split; [|done].
    apply list_elem_of_bind. exists stack. split; [|done].
    apply list_elem_of_bind. exists b. split; [left|]. rewrite Hbs. left.
  - intros (l & b & Hin).
    apply list_elem_of_bind in Hin as ([l' ss] & Hin & He).
    apply list_elem_of_bind in Hin as (s' & Hin & Hs).
    apply list_elem_of_bind in Hin as (b' & Hin & Hb).
    apply list_elem_of_singleton in Hin. simplify_eq.
    apply list_elem_of_filter. split.
    + destruct (librariesByStack i s'); [by apply elem_of_nil in Hb|done].
    + apply list_elem_of_bind. by exists (l', ss).
Qed.

(** ** The strategies on the sample inputs *)
Lemma sampleInputs_wellFormed : wellFormed sampleInputs.
Proof.
  split.
  - by apply (bool_decide_unpack _).
  - by apply (bool_decide_unpack _).
  - intros l Hl. set_solver.
  - intros s Hs. set_solver.
Qed.

Example sample_SingleFile_document :
  result (SingleFileRulesStrategy.generateRules (H:=sampleBuilders)
            "Acme" "Demo" tt sampleWorld) =
    [mkRulesContent
       "# Acme
Demo
## Frontend
### React
- react-query
- zustand

### Vue
- pinia
## Backend
### Express
- express
" "All Rules" "rules.mdc"].
Proof. reflexivity. Qed.

Example sample_SingleFile_headings :
  layerHeadings (fragments "" "" (traversal sampleInputs)) = ["Frontend"; "Backend"]
  ∧ stackHeadings (fragments "" "" (traversal sampleInputs)) =
      ["React"; "Vue"; "Express"]
  ∧ separator <$> fragments "" "" (traversal sampleInputs) =
      [false; false; true; false].
Proof. by vm_compute. Qed.

Example sample_SingleFile_trace :
  trace (world (SingleFileRulesStrategy.generateRules (H:=sampleBuilders)
                  "Acme" "Demo" tt sampleWorld)) =
    [Traverse;
     OnLibrary "Frontend" "React" "react-query";
     OnLibrary "Frontend" "React" "zustand";
     OnLibrary "Frontend" "Vue" "pinia";
     OnLibrary "Backend" "Express" "express"].
Proof. reflexivity. Qed.

Example sample_MultiFile_fileNames :
  fileName <$> result (MultiFileRulesStrategy.generateRules (H:=sampleBuilders)
                         "Acme" "Demo" tt sampleWorld) =
    ["project.mdc"; "Frontend-React-react-query.mdc"; "Frontend-React-zustand.mdc";
     "Frontend-Vue-pinia.mdc"; "Backend-Express-express.mdc"].
Proof. reflexivity. Qed.

(** Where the groupings list a Stack twice, the callback meets it twice as a
    new Stack: the header-emission rule rests on [wellFormed]. *)
Example repeated_stack_headings :
  stackHeadings (fragments "" "" (traversal repeatedStackInputs)) =
    ["React"; "Vue"; "React"]
  ∧ stackHeadings (headerPlan [] [] (traversal repeatedStackInputs)) =
    ["React"; "Vue"].
Proof. by vm_compute. Qed.

(** ** The claims of the specification *)

(** C1.  Single-File header emission.  For a non-empty selection over groupings
    as the Selection Model derives them ([wellFormed]), the one document the
    Single-File strategy returns is the project header followed by the
    fragments of [headerPlan]: a fragment carries the Layer header exactly on
    the first encounter of its Layer in traversal order, the Stack header
    exactly on the first encounter of its Stack, and one line feed before it
    exactly when its Stack is new and its Layer is not.  Consequently the
    Layer headings emitted are the Layers that have a Library, each once and
    in declared order, and likewise the Stack headings. *)
Theorem SingleFile_header_rule `{MarkdownBuilders} {F}
    (projectName projectDescription : string) (f : F) (w : World) :
  selectedLibraries (inputs w) ≠ [] →
  wellFormed (inputs w) →
  let plan := headerPlan [] [] (traversal (inputs w)) in
  result (SingleFileRulesStrategy.generateRules projectName projectDescription f w) =
    [mkRulesContent
       (createProjectMarkdown projectName projectDescription
          +:+ joined (renderFragment <$> plan))
       "All Rules" "rules.mdc"]
  ∧ layerHeadings plan = visitedLayers (inputs w)
  ∧ NoDup (layerHeadings plan)
  ∧ stackHeadings plan = visitedStacks (inputs w)
  ∧ NoDup (stackHeadings plan).
Proof.
  intros Hsel wf plan. subst plan.
  rewrite SingleFile_generateRules_run, decide_False by done.
  unfold result, libraryMarkdown. simpl.
  rewrite (fragments_headerPlan _ "" "" [] [])
    by (try apply Grouped_layers; try apply Grouped_stacks; done).
  rewrite layerHeadings_traversal, stackHeadings_traversal by done.
  split_and!; try done.
  - by apply NoDup_visitedLayers.
  - by apply NoDup_visitedStacks.
Qed.

Lemma SingleFile_header_rule_witness :
  result (SingleFileRulesStrategy.generateRules (H:=sampleBuilders)
            "Acme" "Demo" tt sampleWorld) =
    [mkRulesContent
       (createProjectMarkdown (MarkdownBuilders:=sampleBuilders) "Acme" "Demo"
          +:+ joined (renderFragment (H:=sampleBuilders)
                        <$> headerPlan [] [] (traversal sampleInputs)))
       "All Rules" "rules.mdc"]
  ∧ layerHeadings (headerPlan [] [] (traversal sampleInputs)) =
      visitedLayers sampleInputs
  ∧ NoDup (layerHeadings (headerPlan [] [] (traversal sampleInputs)))
  ∧ stackHeadings (headerPlan [] [] (traversal sampleInputs)) =
      visitedStacks sampleInputs
  ∧ NoDup (stackHeadings (headerPlan [] [] (traversal sampleInputs))).
Proof.
  apply (SingleFile_header_rule (H:=sampleBuilders) "Acme" "Demo" tt sampleWorld).
  - simpl. discriminate.
  - apply sampleInputs_wellFormed.
Defined.

(** C2.  Multi-File documents.  For a non-empty selection whose groupings hold
    exactly the selected Libraries, the Multi-File strategy returns the
    project-summary document first and then one document per selected Library:
    the documents follow the traversal order, and each is rendered with both
    the Layer and the Stack header and named by [createLibraryFileMetadata]. *)
Theorem MultiFile_documents `{MarkdownBuilders} {F}
    (projectName projectDescription : string) (f : F) (w : World) :
  selectedLibraries (inputs w) ≠ [] →
  (traversal (inputs w)).*2 ≡ₚ selectedLibraries (inputs w) →
  ∃ docs : list RulesContent,
    result (MultiFileRulesStrategy.generateRules projectName projectDescription f w) =
      createProjectRulesContent projectName projectDescription :: docs
    ∧ length docs = length (selectedLibraries (inputs w))
    ∧ docs =
        (λ x, mkRulesContent
                (renderLibrarySection (layerOf x) (stackOf x) x.2 true true)
                (createLibraryFileMetadata (layerOf x) (stackOf x) x.2).1
                (createLibraryFileMetadata (layerOf x) (stackOf x) x.2).2)
          <$> traversal (inputs w).
Proof.
  intros Hsel Hperm. eexists. split_and!.
  - rewrite MultiFile_generateRules_run, decide_False by done. done.
  - rewrite length_fmap, <- Hperm, length_fmap. done.
  - apply list_fmap_ext. intros _ [[l s] b] _.
    unfold MultiFileRulesStrategy.buildRulesContent, layerOf, stackOf. simpl.
    by destruct (createLibraryFileMetadata l s b).
Qed.

Lemma MultiFile_documents_witness :
  ∃ docs : list RulesContent,
    result (MultiFileRulesStrategy.generateRules (H:=sampleBuilders)
              "Acme" "Demo" tt sampleWorld) =
      createProjectRulesContent (MarkdownBuilders:=sampleBuilders) "Acme" "Demo" :: docs
    ∧ length docs = length (selectedLibraries sampleInputs)
    ∧ docs =
        (λ x, mkRulesContent
                (renderLibrarySection (H:=sampleBuilders) (layerOf x) (stackOf x) x.2
                   true true)
                (createLibraryFileMetadata (MarkdownBuilders:=sampleBuilders)
                   (layerOf x) (stackOf x) x.2).1
                (createLibraryFileMetadata (MarkdownBuilders:=sampleBuilders)
                   (layerOf x) (stackOf x) x.2).2)
          <$> traversal sampleInputs.
Proof.
  apply (MultiFile_documents (H:=sampleBuilders) "Acme" "Demo" tt sampleWorld).
  - simpl. discriminate.
  - by apply (bool_decide_unpack _).
Defined.

(** C3.  Empty-selection fallback.  With an empty [selectedLibraries] either
    strategy returns exactly one document, the empty-project fallback of the
    project name and description, and leaves the world as it found it: the
    trace gains no [Traverse] and no [OnLibrary] event, so the groupings are
    not traversed and [renderLibrarySection], the only source of Layer and
    Stack headers, is not reached. *)
Theorem empty_selection_fallback `{MarkdownBuilders} {F}
    (projectName projectDescription : string) (f : F) (w : World) :
  selectedLibraries (inputs w) = [] →
  SingleFileRulesStrategy.generateRules projectName projectDescription f w =
    ([emptyProjectDocument projectName projectDescription], f, w)
  ∧ MultiFileRulesStrategy.generateRules projectName projectDescription f w =
    ([emptyProjectDocument projectName projectDescription], f, w).
Proof.
  intros Hsel.
  rewrite SingleFile_generateRules_run, MultiFile_generateRules_run.
  by rewrite !decide_True by done.
Qed.

Lemma empty_selection_fallback_witness :
  SingleFileRulesStrategy.generateRules (H:=sampleBuilders) "Acme" "Demo" tt
      emptySelectionWorld =
    ([emptyProjectDocument (MarkdownBuilders:=sampleBuilders) "Acme" "Demo"],
     tt, emptySelectionWorld)
  ∧ MultiFileRulesStrategy.generateRules (H:=sampleBuilders) "Acme" "Demo" tt
      emptySelectionWorld =
    ([emptyProjectDocument (MarkdownBuilders:=sampleBuilders) "Acme" "Demo"],
     tt, emptySelectionWorld).
Proof.
  apply (empty_selection_fallback (H:=sampleBuilders) "Acme" "Demo" tt
           emptySelectionWorld).
  reflexivity.
Defined.

(** C4.  Determinism and order-independence of the selection.  Two calls of a
    strategy with the same project name and description, the same groupings
    and selections that hold the same Libraries, in whatever order, return
    the same sequence of documents. *)
Theorem selection_order_irrelevant `{MarkdownBuilders} {F}
    (projectName projectDescription : string) (f : F)
    (selection1 selection2 : list Library)
    (stacks : list (Layer * list Stack)) (libraries : Stack → list Library)
    (t : list Event) :
  (∀ library, library ∈ selection1 ↔ library ∈ selection2) →
  result (SingleFileRulesStrategy.generateRules projectName projectDescription f
            (mkWorld (mkInputs selection1 stacks libraries) t)) =
  result (SingleFileRulesStrategy.generateRules projectName projectDescription f
            (mkWorld (mkInputs selection2 stacks libraries) t))
  ∧
  result (MultiFileRulesStrategy.generateRules projectName projectDescription f
            (mkWorld (mkInputs selection1 stacks libraries) t)) =
  result (MultiFileRulesStrategy.generateRules projectName projectDescription f
            (mkWorld (mkInputs selection2 stacks libraries) t)).
Proof.
  intros Hsame.
  rewrite !SingleFile_generateRules_run, !MultiFile_generateRules_run. simpl.
  destruct selection1 as [|a1 s1], selection2 as [|a2 s2]; simpl; try done.
  - exfalso. apply (elem_of_nil a2), Hsame. left.
  - exfalso. apply (elem_of_nil a1), Hsame. left.
Qed.

Lemma selection_order_irrelevant_witness :
  result (SingleFileRulesStrategy.generateRules (H:=sampleBuilders) "Acme" "Demo" tt
            (mkWorld (mkInputs ["zustand"; "pinia"]
                        [("Frontend", ["React"; "Vue"])] sampleLibraries) [])) =
  result (SingleFileRulesStrategy.generateRules (H:=sampleBuilders) "Acme" "Demo" tt
            (mkWorld (mkInputs ["pinia"; "zustand"]
                        [("Frontend", ["React"; "Vue"])] sampleLibraries) []))
  ∧
  result (MultiFileRulesStrategy.generateRules (H:=sampleBuilders) "Acme" "Demo" tt
            (mkWorld (mkInputs ["zustand"; "pinia"]
                        [("Frontend", ["React"; "Vue"])] sampleLibraries) [])) =
  result (MultiFileRulesStrategy.generateRules (H:=sampleBuilders) "Acme" "Demo" tt
            (mkWorld (mkInputs ["pinia"; "zustand"]
                        [("Frontend", ["React"; "Vue"])] sampleLibraries) [])).
Proof.
  apply (selection_order_irrelevant (H:=sampleBuilders)).
  intros library. rewrite !elem_of_cons. tauto.
Defined.

(** C8.  Single-File document.  For a non-empty selection the Single-File
    strategy returns exactly one document, labelled "All Rules" and named
    "rules.mdc" whatever the selection; its markdown is the project header
    followed by one part per visited Library, in traversal order, each part
    being that Library's rendered section, after a line feed or not. *)
Theorem SingleFile_one_document `{MarkdownBuilders} {F}
    (projectName projectDescription : string) (f : F) (w : World) :
  selectedLibraries (inputs w) ≠ [] →
  ∃ parts : list string,
    result (SingleFileRulesStrategy.generateRules projectName projectDescription f w) =
      [mkRulesContent
         (createProjectMarkdown projectName projectDescription +:+ joined parts)
         "All Rules" "rules.mdc"]
    ∧ Forall2
        (λ part x, ∃ sep includeLayerHeader includeStackHeader : bool,
           part = (if sep then LF else "") +:+
                  renderLibrarySection (layerOf x) (stackOf x) x.2
                    includeLayerHeader includeStackHeader)
        parts (traversal (inputs w)).
Proof.
  intros Hsel.
  exists (renderFragment <$> fragments "" "" (traversal (inputs w))).
  rewrite SingleFile_generateRules_run, decide_False by done.
  split; [done|]. apply fragments_parts.
Qed.

Lemma SingleFile_one_document_witness :
  ∃ parts : list string,
    result (SingleFileRulesStrategy.generateRules (H:=sampleBuilders)
              "Acme" "Demo" tt sampleWorld) =
      [mkRulesContent
         (createProjectMarkdown (MarkdownBuilders:=sampleBuilders) "Acme" "Demo"
            +:+ joined parts)
         "All Rules" "rules.mdc"]
    ∧ Forall2
        (λ part x, ∃ sep includeLayerHeader includeStackHeader : bool,
           part = (if sep then LF else "") +:+
                  renderLibrarySection (H:=sampleBuilders) (layerOf x) (stackOf x) x.2
                    includeLayerHeader includeStackHeader)
        parts (traversal sampleInputs).
Proof.
  apply (SingleFile_one_document (H:=sampleBuilders) "Acme" "Demo" tt sampleWorld).
  simpl. discriminate.
Defined.

(** C9.  Frame.  A call of [generateRules] of either strategy leaves the
    caller's objects as they were: the [selectedLibraries] array and the
    [stacksByLayer] and [librariesByStack] records after the call are those
    from before it. *)
Theorem generateRules_leaves_inputs `{MarkdownBuilders} {F}
    (projectName projectDescription : string) (f : F) (w : World) :
  inputs (world (SingleFileRulesStrategy.generateRules
                   projectName projectDescription f w)) = inputs w
  ∧ inputs (world (MultiFileRulesStrategy.generateRules
                     projectName projectDescription f w)) = inputs w.
Proof.
  rewrite SingleFile_generateRules_run, MultiFile_generateRules_run.
  by case_decide.
Qed.

(** C10.  The strategies agree on empty selections.  Whatever the project name
    and description, and whatever groupings each of the two calls is given,
    the Single-File and the Multi-File strategy return the same result for an
    empty selection: the value of [createEmptyProjectRulesContent]. *)
Theorem strategies_agree_on_empty_selection `{MarkdownBuilders} {F G}
    (projectName projectDescription : string) (f : F) (g : G)
    (stacksByLayer1 stacksByLayer2 : list (Layer * list Stack))
    (librariesByStack1 librariesByStack2 : Stack → list Library)
    (trace1 trace2 : list Event) :
  let single :=
    result (SingleFileRulesStrategy.generateRules projectName projectDescription f
              (mkWorld (mkInputs [] stacksByLayer1 librariesByStack1) trace1)) in
  let multi :=
    result (MultiFileRulesStrategy.generateRules projectName projectDescription g
              (mkWorld (mkInputs [] stacksByLayer2 librariesByStack2) trace2)) in
  single = multi
  ∧ multi = createEmptyProjectRulesContent projectName projectDescription.
Proof.
  simpl. by rewrite SingleFile_generateRules_run, MultiFile_generateRules_run.
Qed.

(** ** The dirty state of the selection store *)
Section SelectionStoreLaws.
Import SelectionStore.

Lemma toggleLibrary_changes id st :
  selectedLibraries (toggleLibrary id st) ≠ selectedLibraries st.
Proof.
  unfold toggleLibrary. simpl. case_decide; intros Heq.
  - assert (id ∈ selectedLibraries st ∖ {[id]}) by (by rewrite Heq). set_solver.
  - assert (id ∈ selectedLibraries st) by (rewrite <- Heq; set_solver). done.
Qed.

Lemma toggleLibrary_twice id st : toggleLibrary id (toggleLibrary id st) = st.
Proof.
  destruct st as [sel orig]. unfold toggleLibrary. simpl. f_equal.
  destruct (decide (id ∈ sel)) as [Hin|Hnin].
  - rewrite decide_False by set_solver.
    apply set_eq. intros x. destruct (decide (x = id)); set_solver.
  - rewrite decide_True by set_solver. set_solver.
Qed.

(** C7, as stated, fails: a toggle that changes the selection can make it
    equal to [originalLibraries] again.  With "react-query" as baseline and
    "react-query" and "zustand" selected, toggling "zustand" changes the set
    of selected Libraries and [isDirty] is false afterwards. *)
Lemma toggle_may_restore_baseline :
  selectedLibraries (toggleLibrary "zustand" dirtyState) ≠ selectedLibraries dirtyState
  ∧ isDirty (toggleLibrary "zustand" dirtyState) = false.
Proof.
  split; [apply toggleLibrary_changes|]. by vm_compute.
Qed.

(** C7, amended.  [isDirty] is true exactly when the set of selected Libraries
    differs from [originalLibraries]; after [loadOriginal] it is false; after
    a [toggleLibrary] on a store that is not dirty it is true; and after
    toggling the same Library twice it has the value it had before. *)
Theorem isDirty_laws (st : State) (id : Library) (libraries : gset Library) :
  (isDirty st = true ↔ selectedLibraries st ≠ originalLibraries st)
  ∧ isDirty (loadOriginal libraries st) = false
  ∧ (isDirty st = false → isDirty (toggleLibrary id st) = true)
  ∧ isDirty (toggleLibrary id (toggleLibrary id st)) = isDirty st.
Proof.
  split_and!.
  - unfold isDirty. by rewrite bool_decide_eq_true.
  - unfold isDirty, loadOriginal. simpl. rewrite bool_decide_eq_false. by intros Hc.
  - unfold isDirty at 1. rewrite bool_decide_eq_false. intros Hclean.
    apply dec_stable in Hclean.
    unfold isDirty. rewrite bool_decide_eq_true.
    change (originalLibraries (toggleLibrary id st)) with (originalLibraries st).
    rewrite <- Hclean. apply toggleLibrary_changes.
  - by rewrite toggleLibrary_twice.
Qed.

Lemma isDirty_laws_witness :
  isDirty (loadOriginal {["react-query"]} dirtyState) = false
  ∧ isDirty (toggleLibrary "zustand" (loadOriginal {["react-query"]} dirtyState)) = true.
Proof.
  pose proof (isDirty_laws (loadOriginal {["react-query"]} dirtyState)
                "zustand" {["react-query"]}) as (_ & Hload & Htoggle & _).
  split; [reflexivity|]. apply Htoggle. reflexivity.
Defined.

End SelectionStoreLaws.

(** * Further properties of the strategies *)

(** ** What the selection and the project context reach *)

(** X1.  The content of the selection is ignored.  [generateRules] reads
    [selectedLibraries] only through its length: two non-empty selections,
    whatever Libraries they hold, give the same documents for the same
    groupings, in both strategies. *)
Theorem generateRules_ignores_selection_content `{MarkdownBuilders} {F}
    (projectName projectDescription : string) (f : F)
    (selection1 selection2 : list Library)
    (stacks : list (Layer * list Stack)) (libraries : Stack → list Library)
    (t1 t2 : list Event) :
  selection1 ≠ [] → selection2 ≠ [] →
  result (SingleFileRulesStrategy.generateRules projectName projectDescription f
            (mkWorld (mkInputs selection1 stacks libraries) t1)) =
  result (SingleFileRulesStrategy.generateRules projectName projectDescription f
            (mkWorld (mkInputs selection2 stacks libraries) t2))
  ∧
  result (MultiFileRulesStrategy.generateRules projectName projectDescription f
            (mkWorld (mkInputs selection1 stacks libraries) t1)) =
  result (MultiFileRulesStrategy.generateRules projectName projectDescription f
            (mkWorld (mkInputs selection2 stacks libraries) t2)).
Proof.
  intros Hsel1 Hsel2.
  rewrite !SingleFile_generateRules_run, !MultiFile_generateRules_run. simpl.
  by rewrite !decide_False by done.
Qed.

Lemma generateRules_ignores_selection_content_witness :
  result (SingleFileRulesStrategy.generateRules (H:=sampleBuilders) "Acme" "Demo" tt
            (mkWorld (mkInputs ["zustand"]
                        [("Frontend", ["React"; "Vue"])] sampleLibraries) [])) =
  result (SingleFileRulesStrategy.generateRules (H:=sampleBuilders) "Acme" "Demo" tt
            (mkWorld (mkInputs ["express"; "pinia"]
                        [("Frontend", ["React"; "Vue"])] sampleLibraries) [Traverse]))
  ∧
  result (MultiFileRulesStrategy.generateRules (H:=sampleBuilders) "Acme" "Demo" tt
            (mkWorld (mkInputs ["zustand"]
                        [("Frontend", ["React"; "Vue"])] sampleLibraries) [])) =
  result (MultiFileRulesStrategy.generateRules (H:=sampleBuilders) "Acme" "Demo" tt
            (mkWorld (mkInputs ["express"; "pinia"]
                        [("Frontend", ["React"; "Vue"])] sampleLibraries) [Traverse])).
Proof.
  apply (generateRules_ignores_selection_content (H:=sampleBuilders)); discriminate.
Defined.

Lemma traversal_nil i :
  (∀ layer stacks stack,
     (layer, stacks) ∈ stacksByLayer i → stack ∈ stacks →
     librariesByStack i stack = []) →
  traversal i = [].
Proof.
  intros Hnone. unfold traversal.
  destruct (stacksByLayer i ≫= _) as [|x xs] eqn:Hxs; [done|].
  assert (x ∈ x :: xs) as Hin by left. rewrite <- Hxs in Hin.
  apply list_elem_of_bind in Hin as ([l ss] & Hin & He).
  apply list_elem_of_bind in Hin as (s & Hin & Hs).
  apply list_elem_of_bind in Hin as (b & Hin & Hb).
  rewrite (Hnone l ss s He Hs) in Hb. by apply elem_of_nil in Hb.
Qed.

(** X2.  A non-empty selection over groupings that list no Library.  The
    fallback document is chosen by the selection alone: when the selection
    is not empty and no listed Stack has a Library, the Single-File strategy
    returns the "All Rules" document holding the project header and nothing
    else, and the Multi-File strategy returns the project document alone. *)
Theorem nonempty_selection_without_libraries `{MarkdownBuilders} {F}
    (projectName projectDescription : string) (f : F) (w : World) :
  selectedLibraries (inputs w) ≠ [] →
  (∀ layer stacks stack,
     (layer, stacks) ∈ stacksByLayer (inputs w) → stack ∈ stacks →
     librariesByStack (inputs w) stack = []) →
  result (SingleFileRulesStrategy.generateRules projectName projectDescription f w) =
    [mkRulesContent (createProjectMarkdown projectName projectDescription)
       "All Rules" "rules.mdc"]
  ∧ result (MultiFileRulesStrategy.generateRules projectName projectDescription f w) =
    [createProjectRulesContent projectName projectDescription].
Proof.
  intros Hsel Hnone.
  rewrite SingleFile_generateRules_run, MultiFile_generateRules_run.
  rewrite !decide_False by done. unfold result, libraryMarkdown. simpl.
  rewrite (traversal_nil _ Hnone). simpl.
  unfold joined. simpl. by rewrite string_app_nil_r.
Qed.

Lemma nonempty_selection_without_libraries_witness :
  result (SingleFileRulesStrategy.generateRules (H:=sampleBuilders) "Acme" "Demo" tt
            (mkWorld (mkInputs ["zustand"] [("Frontend", ["Svelte"])] sampleLibraries) [])) =
    [mkRulesContent (createProjectMarkdown (MarkdownBuilders:=sampleBuilders) "Acme" "Demo")
       "All Rules" "rules.mdc"]
  ∧ result (MultiFileRulesStrategy.generateRules (H:=sampleBuilders) "Acme" "Demo" tt
            (mkWorld (mkInputs ["zustand"] [("Frontend", ["Svelte"])] sampleLibraries) [])) =
    [createProjectRulesContent (MarkdownBuilders:=sampleBuilders) "Acme" "Demo"].
Proof.
  apply (nonempty_selection_without_libraries (H:=sampleBuilders) "Acme" "Demo" tt
           (mkWorld (mkInputs ["zustand"] [("Frontend", ["Svelte"])] sampleLibraries) [])).
  - simpl. discriminate.
  - simpl. intros layer stacks stack He Hs.
    apply list_elem_of_singleton in He. injection He as -> ->.
    apply list_elem_of_singleton in Hs. by subst.
Defined.

(** X3.  The project context reaches the project header only.  For a non-empty
    selection the Library documents of the Multi-File strategy, and the part of
    the Single-File document after the project header, are the same whatever
    project name and description are passed. *)
Theorem project_context_reaches_header_only `{MarkdownBuilders} {F}
    (name1 description1 name2 description2 : string) (f : F) (w : World) :
  selectedLibraries (inputs w) ≠ [] →
  drop 1 (result (MultiFileRulesStrategy.generateRules name1 description1 f w)) =
  drop 1 (result (MultiFileRulesStrategy.generateRules name2 description2 f w))
  ∧ ∃ body : string,
      result (SingleFileRulesStrategy.generateRules name1 description1 f w) =
        [mkRulesContent (createProjectMarkdown name1 description1 +:+ body)
           "All Rules" "rules.mdc"]
      ∧ result (SingleFileRulesStrategy.generateRules name2 description2 f w) =
        [mkRulesContent (createProjectMarkdown name2 description2 +:+ body)
           "All Rules" "rules.mdc"].
Proof.
  intros Hsel.
  rewrite !SingleFile_generateRules_run, !MultiFile_generateRules_run.
  rewrite !decide_False by done. split; [done|].
  by exists (libraryMarkdown (inputs w)).
Qed.

Lemma project_context_reaches_header_only_witness :
  drop 1 (result (MultiFileRulesStrategy.generateRules (H:=sampleBuilders)
                    "Acme" "Demo" tt sampleWorld)) =
  drop 1 (result (MultiFileRulesStrategy.generateRules (H:=sampleBuilders)
                    "Other" "Project" tt sampleWorld))
  ∧ ∃ body : string,
      result (SingleFileRulesStrategy.generateRules (H:=sampleBuilders)
                "Acme" "Demo" tt sampleWorld) =
        [mkRulesContent
           (createProjectMarkdown (MarkdownBuilders:=sampleBuilders) "Acme" "Demo"
              +:+ body)
           "All Rules" "rules.mdc"]
      ∧ result (SingleFileRulesStrategy.generateRules (H:=sampleBuilders)
                  "Other" "Project" tt sampleWorld) =
        [mkRulesContent
           (createProjectMarkdown (MarkdownBuilders:=sampleBuilders) "Other" "Project"
              +:+ body)
           "All Rules" "rules.mdc"].
Proof.
  apply (project_context_reaches_header_only (H:=sampleBuilders)
           "Acme" "Demo" "Other" "Project" tt sampleWorld).
  simpl. discriminate.
Defined.

(** ** The documents of the Multi-File strategy *)

Lemma traversal_withStacksByLayer_app i es1 es2 :
  traversal (withStacksByLayer i (es1 ++ es2)) =
    traversal (withStacksByLayer i es1) ++ traversal (withStacksByLayer i es2).
Proof. unfold traversal. simpl. by rewrite bind_app. Qed.

Lemma length_traversal i : length (traversal i) = libraryCount i.
Proof.
  unfold traversal, libraryCount.
  induction (stacksByLayer i) as [|[l ss] es IH]; [done|].
  rewrite bind_cons, length_app, fmap_cons.
  change (sum_list (?x :: ?xs)) with (x + sum_list xs).
  f_equal; [|exact IH]. clear IH. cbn [snd].
  induction ss as [|s ss IH]; [done|].
  rewrite bind_cons, length_app, fmap_cons.
  change (sum_list (?x :: ?xs)) with (x + sum_list xs).
  f_equal; [|exact IH].
  induction (librariesByStack i s) as [|b bs IHb]; [done|].
  rewrite bind_cons. simpl. by rewrite IHb.
Qed.

(** X4.  The number of Multi-File documents.  For a non-empty selection the
    strategy returns one document more than the groupings list Libraries,
    counted Stack by Stack: a Library listed twice gets two documents, and a
    selected Library the groupings leave out gets none. *)
Theorem MultiFile_document_count `{MarkdownBuilders} {F}
    (projectName projectDescription : string) (f : F) (w : World) :
  selectedLibraries (inputs w) ≠ [] →
  length (result (MultiFileRulesStrategy.generateRules
                    projectName projectDescription f w)) =
    S (libraryCount (inputs w)).
Proof.
  intros Hsel. rewrite MultiFile_generateRules_run, decide_False by done.
  unfold result. simpl. by rewrite length_fmap, length_traversal.
Qed.

Lemma MultiFile_document_count_witness :
  length (result (MultiFileRulesStrategy.generateRules (H:=sampleBuilders)
                    "Acme" "Demo" tt (mkWorld repeatedStackInputs []))) =
    S (libraryCount repeatedStackInputs).
Proof.
  apply (MultiFile_document_count (H:=sampleBuilders) "Acme" "Demo" tt
           (mkWorld repeatedStackInputs [])).
  simpl. discriminate.
Defined.

(** X5.  The Multi-File documents of two lists of Layers.  For a non-empty
    selection, the documents for the entries [es1 ++ es2] are the documents
    for [es1] followed by the Library documents for [es2]: a Layer's
    documents do not depend on the Layers around it. *)
Theorem MultiFile_layers_compose `{MarkdownBuilders} {F}
    (projectName projectDescription : string) (f : F) (i : Inputs)
    (es1 es2 : list (Layer * list Stack)) (t : list Event) :
  selectedLibraries i ≠ [] →
  result (MultiFileRulesStrategy.generateRules projectName projectDescription f
            (mkWorld (withStacksByLayer i (es1 ++ es2)) t)) =
  result (MultiFileRulesStrategy.generateRules projectName projectDescription f
            (mkWorld (withStacksByLayer i es1) t))
  ++ drop 1
       (result (MultiFileRulesStrategy.generateRules projectName projectDescription f
                  (mkWorld (withStacksByLayer i es2) t))).
Proof.
  intros Hsel. rewrite !MultiFile_generateRules_run. simpl.
  rewrite !decide_False by done. unfold result. simpl.
  by rewrite traversal_withStacksByLayer_app, fmap_app.
Qed.

Lemma MultiFile_layers_compose_witness :
  result (MultiFileRulesStrategy.generateRules (H:=sampleBuilders) "Acme" "Demo" tt
            (mkWorld (withStacksByLayer sampleInputs
                        ([("Frontend", ["React"; "Vue"])] ++ [("Backend", ["Express"])]))
               [])) =
  result (MultiFileRulesStrategy.generateRules (H:=sampleBuilders) "Acme" "Demo" tt
            (mkWorld (withStacksByLayer sampleInputs [("Frontend", ["React"; "Vue"])]) []))
  ++ drop 1
       (result (MultiFileRulesStrategy.generateRules (H:=sampleBuilders) "Acme" "Demo" tt
                  (mkWorld (withStacksByLayer sampleInputs [("Backend", ["Express"])]) []))).
Proof.
  apply (MultiFile_layers_compose (H:=sampleBuilders) "Acme" "Demo" tt sampleInputs).
  simpl. discriminate.
Defined.

(** ** The fragments of the Single-File document, on any groupings *)

Lemma joined_app (ps qs : list string) :
  joined (ps ++ qs) = joined ps +:+ joined qs.
Proof.
  induction ps as [|p ps IH]; [done|].
  unfold joined in *. simpl. by rewrite IH, string_app_assoc.
Qed.

Lemma visit_fragments previousLayer previousStack (xs : list Visit) :
  visit <$> fragments previousLayer previousStack xs = xs.
Proof.
  revert previousLayer previousStack.
  induction xs as [|[[l s] b] xs IH]; intros pl ps; [done|].
  simpl. f_equal. apply IH.
Qed.

Lemma separator_fragments previousLayer previousStack (xs : list Visit) :
  Forall (λ fr, separator fr = true → stackHeader fr = true ∧ layerHeader fr = false)
    (fragments previousLayer previousStack xs).
Proof.
  revert previousLayer previousStack.
  induction xs as [|[[l s] b] xs IH]; intros pl ps; simpl; constructor; [|apply IH].
  simpl. destruct (negb (s =? ps)%string), (negb (l =? pl)%string); naive_solver.
Qed.

(** X6.  Separators of the Single-File document, on any groupings.  For a
    non-empty selection the document is the project header followed by one
    fragment per visit; the first fragment has no separator, and carries the
    Layer header and the Stack header unless the identifier is the empty
    string; and a fragment with a separator carries a Stack header and no
    Layer header, so a blank line is never put before a Layer heading. *)
Theorem SingleFile_separators `{MarkdownBuilders} {F}
    (projectName projectDescription : string) (f : F) (w : World) :
  selectedLibraries (inputs w) ≠ [] →
  ∃ frs : list Fragment,
    result (SingleFileRulesStrategy.generateRules projectName projectDescription f w) =
      [mkRulesContent
         (createProjectMarkdown projectName projectDescription
            +:+ joined (renderFragment <$> frs))
         "All Rules" "rules.mdc"]
    ∧ visit <$> frs = traversal (inputs w)
    ∧ (∀ fr, head frs = Some fr →
         separator fr = false
         ∧ layerHeader fr = truthy (layerOf (visit fr))
         ∧ stackHeader fr = truthy (stackOf (visit fr)))
    ∧ Forall (λ fr, separator fr = true →
                    stackHeader fr = true ∧ layerHeader fr = false) frs.
Proof.
  intros Hsel. exists (fragments "" "" (traversal (inputs w))).
  rewrite SingleFile_generateRules_run, decide_False by done.
  split_and!; [done|apply visit_fragments| |apply separator_fragments].
  intros fr Hhead. destruct (traversal (inputs w)) as [|[[l s] b] xs]; [done|].
  simpl in Hhead. injection Hhead as <-. simpl.
  by rewrite andb_false_r.
Qed.

Lemma SingleFile_separators_witness :
  ∃ frs : list Fragment,
    result (SingleFileRulesStrategy.generateRules (H:=sampleBuilders)
              "Acme" "Demo" tt (mkWorld repeatedStackInputs [])) =
      [mkRulesContent
         (createProjectMarkdown (MarkdownBuilders:=sampleBuilders) "Acme" "Demo"
            +:+ joined (renderFragment (H:=sampleBuilders) <$> frs))
         "All Rules" "rules.mdc"]
    ∧ visit <$> frs = traversal repeatedStackInputs
    ∧ (∀ fr, head frs = Some fr →
         separator fr = false
         ∧ layerHeader fr = truthy (layerOf (visit fr))
         ∧ stackHeader fr = truthy (stackOf (visit fr)))
    ∧ Forall (λ fr, separator fr = true →
                    stackHeader fr = true ∧ layerHeader fr = false) frs.
Proof.
  apply (SingleFile_separators (H:=sampleBuilders) "Acme" "Demo" tt
           (mkWorld repeatedStackInputs [])).
  simpl. discriminate.
Defined.

Lemma layerHeadings_fragments_elem xs previousLayer previousStack (seen : list string) x :
  previousLayer = "" ∨ previousLayer ∈ seen →
  x ∈ xs → layerOf x ≠ "" → layerOf x ∉ seen →
  layerOf x ∈ layerHeadings (fragments previousLayer previousStack xs).
Proof.
  revert previousLayer previousStack seen.
  induction xs as [|[[l s] b] xs IH]; intros pl ps seen Hpl Hin Hne Hseen.
  - by apply elem_of_nil in Hin.
  - simpl. unfold layerHeadings. rewrite filter_cons. simpl.
    destruct (decide (layerOf x = l)) as [Hl|Hl].
    + assert (l ≠ pl) as Hnew by (intros ->; naive_solver).
      apply String.eqb_neq in Hnew. rewrite Hnew. simpl.
      rewrite Hl. left.
    + apply elem_of_cons in Hin as [->|Hin]; [done|].
      assert (layerOf x ∈ layerHeadings (fragments l s xs)) as Htail.
      { apply (IH l s (l :: seen)); [right; left|done..|].
        apply not_elem_of_cons. done. }
      unfold layerHeadings in Htail. case_decide; [|exact Htail].
      rewrite fmap_cons. right. exact Htail.
Qed.

Lemma stackHeadings_fragments_elem xs previousLayer previousStack (seen : list string) x :
  previousStack = "" ∨ previousStack ∈ seen →
  x ∈ xs → stackOf x ≠ "" → stackOf x ∉ seen →
  stackOf x ∈ stackHeadings (fragments previousLayer previousStack xs).
Proof.
  revert previousLayer previousStack seen.
  induction xs as [|[[l s] b] xs IH]; intros pl ps seen Hps Hin Hne Hseen.
  - by apply elem_of_nil in Hin.
  - simpl. unfold stackHeadings. rewrite filter_cons. simpl.
    destruct (decide (stackOf x = s)) as [Hs|Hs].
    + assert (s ≠ ps) as Hnew by (intros ->; naive_solver).
      apply String.eqb_neq in Hnew. rewrite Hnew. simpl.
      rewrite Hs. left.
    + apply elem_of_cons in Hin as [->|Hin]; [done|].
      assert (stackOf x ∈ stackHeadings (fragments l s xs)) as Htail.
      { apply (IH l s (s :: seen)); [right; left|done..|].
        apply not_elem_of_cons. done. }
      unfold stackHeadings in Htail. case_decide; [|exact Htail].
      rewrite fmap_cons. right. exact Htail.
Qed.

(** X7.  No visited Layer or Stack goes without its heading, on any
    groupings.  For a non-empty selection, every Layer and every Stack the
    traversal visits, if its identifier is not the empty string, has its
    header emitted with at least one fragment of the document, also where
    the groupings repeat a Layer or a Stack. *)
Theorem SingleFile_headings_cover_visits `{MarkdownBuilders} {F}
    (projectName projectDescription : string) (f : F) (w : World) :
  selectedLibraries (inputs w) ≠ [] →
  let frs := fragments "" "" (traversal (inputs w)) in
  result (SingleFileRulesStrategy.generateRules projectName projectDescription f w) =
    [mkRulesContent
       (createProjectMarkdown projectName projectDescription
          +:+ joined (renderFragment <$> frs))
       "All Rules" "rules.mdc"]
  ∧ ∀ x, x ∈ traversal (inputs w) →
      (layerOf x ≠ "" → layerOf x ∈ layerHeadings frs)
      ∧ (stackOf x ≠ "" → stackOf x ∈ stackHeadings frs).
Proof.
  intros Hsel frs. subst frs.
  rewrite SingleFile_generateRules_run, decide_False by done.
  split; [done|]. intros x Hx. split; intros Hne.
  - apply (layerHeadings_fragments_elem _ _ _ []); [by left|done..|apply not_elem_of_nil].
  - apply (stackHeadings_fragments_elem _ _ _ []); [by left|done..|apply not_elem_of_nil].
Qed.

Lemma SingleFile_headings_cover_visits_witness :
  result (SingleFileRulesStrategy.generateRules (H:=sampleBuilders)
            "Acme" "Demo" tt (mkWorld repeatedStackInputs [])) =
    [mkRulesContent
       (createProjectMarkdown (MarkdownBuilders:=sampleBuilders) "Acme" "Demo"
          +:+ joined (renderFragment (H:=sampleBuilders)
                        <$> fragments "" "" (traversal repeatedStackInputs)))
       "All Rules" "rules.mdc"]
  ∧ ∀ x, x ∈ traversal repeatedStackInputs →
      (layerOf x ≠ "" →
       layerOf x ∈ layerHeadings (fragments "" "" (traversal repeatedStackInputs)))
      ∧ (stackOf x ≠ "" →
         stackOf x ∈ stackHeadings (fragments "" "" (traversal repeatedStackInputs))).
Proof.
  apply (SingleFile_headings_cover_visits (H:=sampleBuilders) "Acme" "Demo" tt
           (mkWorld repeatedStackInputs [])).
  simpl. discriminate.
Defined.

(** ** The layout of the Single-File document *)

Lemma string_app_nil_l (s : string) : "" +:+ s = s.
Proof. reflexivity. Qed.

Lemma list_bind_nil {A B} (f : A → list B) : [] ≫= f = [].
Proof. reflexivity. Qed.

Lemma fragments_app previousLayer previousStack (xs ys : list Visit) :
  fragments previousLayer previousStack (xs ++ ys) =
    fragments previousLayer previousStack xs
    ++ fragments (lastKey layerOf previousLayer xs)
         (lastKey stackOf previousStack xs) ys.
Proof.
  revert previousLayer previousStack.
  induction xs as [|x xs IH]; intros pl ps; [done|].
  simpl. f_equal. apply IH.
Qed.

Lemma lastKey_const {A} (key : A → string) (k d : string) (xs : list A) :
  xs ≠ [] → (∀ x, x ∈ xs → key x = k) → lastKey key d xs = k.
Proof.
  revert d. induction xs as [|x xs IH]; intros d Hne Hall; [done|].
  unfold lastKey. simpl. destruct xs as [|y ys].
  - simpl. apply Hall. left.
  - apply IH; [done|]. intros z Hz. apply Hall. by right.
Qed.

Lemma lastKey_cases {A} (key : A → string) (d : string) (xs : list A) :
  lastKey key d xs = d ∨ lastKey key d xs ∈ key <$> xs.
Proof.
  revert d. induction xs as [|x xs IH]; intros d; [by left|].
  rewrite fmap_cons. change (lastKey key d (x :: xs)) with (lastKey key (key x) xs).
  destruct (IH (key x)) as [Heq|Hin].
  - right. rewrite Heq. left.
  - right. by right.
Qed.

Section LayoutProof.
Context `{MarkdownBuilders}.
Variable i : Inputs.

(** The later Libraries of a Stack add their content only. *)
Lemma fragments_same_stack layer stack (libraries : list Library) :
  joined (renderFragment <$>
            fragments layer stack (library ← libraries ; [(layer, stack, library)])) =
    joined (libraryContent <$> libraries).
Proof.
  induction libraries as [|b bs IH]; [done|].
  rewrite bind_cons.
  change ([(layer, stack, b)] ++ ?xs) with ((layer, stack, b) :: xs).
  cbn [fragments]. rewrite !fmap_cons.
  change (joined (?p :: ?ps)) with (p +:+ joined ps).
  change (layerOf (layer, stack, b)) with layer.
  change (stackOf (layer, stack, b)) with stack.
  rewrite IH.
  unfold renderFragment, emitted, renderLibrarySection. simpl.
  rewrite !String.eqb_refl. simpl. by rewrite !string_app_nil_l.
Qed.

(** The first Library of a new Stack brings the Stack header, after the
    Layer header where the Layer is new and after a line feed where it is
    not. *)
Lemma fragments_new_stack previousLayer previousStack layer stack b bs :
  stack ≠ previousStack →
  joined (renderFragment <$>
            fragments previousLayer previousStack
              (library ← b :: bs ; [(layer, stack, library)])) =
    (if decide (layer = previousLayer)
     then (if truthy previousStack then LF else "")
     else layerHeading layer)
    +:+ stackHeading stack +:+ joined (libraryContent <$> b :: bs).
Proof.
  intros Hs. rewrite bind_cons.
  change ([(layer, stack, b)] ++ ?xs) with ((layer, stack, b) :: xs).
  cbn [fragments]. rewrite !fmap_cons.
  change (joined (?p :: ?ps)) with (p +:+ joined ps).
  change (layerOf (layer, stack, b)) with layer.
  change (stackOf (layer, stack, b)) with stack.
  rewrite fragments_same_stack.
  unfold renderFragment, emitted, renderLibrarySection. simpl.
  apply String.eqb_neq in Hs. rewrite Hs. simpl.
  case_decide as Hl.
  - subst. rewrite String.eqb_refl. simpl.
    destruct (truthy previousStack); simpl;
      by rewrite ?string_app_nil_l, ?string_app_assoc.
  - apply String.eqb_neq in Hl. rewrite Hl. simpl.
    by rewrite ?string_app_nil_l, ?string_app_assoc.
Qed.

Lemma lastKey_layerOf_libraries d layer stack b bs :
  lastKey layerOf d (library ← b :: bs ; [(layer, stack, library)]) = layer.
Proof.
  apply lastKey_const; [by rewrite bind_cons|].
  intros x Hx. apply list_elem_of_bind in Hx as (y & Hx & _).
  apply list_elem_of_singleton in Hx. by subst.
Qed.

Lemma lastKey_stackOf_libraries d layer stack b bs :
  lastKey stackOf d (library ← b :: bs ; [(layer, stack, library)]) = stack.
Proof.
  apply lastKey_const; [by rewrite bind_cons|].
  intros x Hx. apply list_elem_of_bind in Hx as (y & Hx & _).
  apply list_elem_of_singleton in Hx. by subst.
Qed.

(** The Stacks of a Layer after its first Stack with a Library. *)
Lemma fragments_later_stacks layer (stacks : list Stack) previousStack :
  previousStack ≠ "" → previousStack ∉ stacks → NoDup stacks → "" ∉ stacks →
  joined (renderFragment <$>
            fragments layer previousStack
              (stack ← stacks ; library ← librariesByStack i stack ;
               [(layer, stack, library)])) =
    joined ((λ stack, LF +:+ stackSection i stack)
              <$> filter (λ stack, librariesByStack i stack ≠ []) stacks).
Proof.
  revert previousStack.
  induction stacks as [|s ss IH]; intros ps Hps Hfresh Hnd Hnamed; [done|].
  apply NoDup_cons in Hnd as [Hs Hnd].
  apply not_elem_of_cons in Hfresh as [Hne Hfresh].
  apply not_elem_of_cons in Hnamed as [Hsn Hnamed].
  rewrite bind_cons, filter_cons.
  destruct (librariesByStack i s) as [|b bs] eqn:Hlibs.
  - rewrite decide_False by (intros Hc; by apply Hc).
    rewrite list_bind_nil, app_nil_l. by apply IH.
  - rewrite decide_True by done.
    rewrite fragments_app, fmap_app, joined_app.
    rewrite lastKey_layerOf_libraries, lastKey_stackOf_libraries.
    rewrite fragments_new_stack by done.
    rewrite decide_True by done.
    assert (truthy ps = true) as ->.
    { unfold truthy. by apply String.eqb_neq in Hps as ->. }
    rewrite IH by done.
    rewrite (fmap_cons (λ stack, LF +:+ stackSection i stack)).
    change (joined (?p :: ?ps)) with (p +:+ joined ps).
    unfold stackSection. rewrite Hlibs.
    by rewrite !string_app_assoc.
Qed.

(** A whole Layer, met as a new Layer. *)
Lemma fragments_layer previousLayer previousStack layer (stacks : list Stack) :
  layer ≠ previousLayer →
  previousStack ∉ stacks → NoDup stacks → "" ∉ stacks →
  joined (renderFragment <$>
            fragments previousLayer previousStack
              (stack ← stacks ; library ← librariesByStack i stack ;
               [(layer, stack, library)])) =
    layerSection i layer stacks.
Proof.
  intros Hl. unfold layerSection.
  induction stacks as [|s ss IH]; intros Hfresh Hnd Hnamed; [done|].
  apply NoDup_cons in Hnd as [Hs Hnd].
  apply not_elem_of_cons in Hfresh as [Hne Hfresh].
  apply not_elem_of_cons in Hnamed as [Hsn Hnamed].
  rewrite bind_cons, filter_cons.
  destruct (librariesByStack i s) as [|b bs] eqn:Hlibs.
  - rewrite decide_False by (intros Hc; by apply Hc).
    rewrite list_bind_nil, app_nil_l. by apply IH.
  - rewrite decide_True by done.
    rewrite fragments_app, fmap_app, joined_app.
    rewrite lastKey_layerOf_libraries, lastKey_stackOf_libraries.
    rewrite fragments_new_stack by done.
    rewrite decide_False by done.
    rewrite fragments_later_stacks by done.
    unfold stackSection. rewrite Hlibs.
    by rewrite !string_app_assoc.
Qed.

Lemma layerOf_stacks_elem layer (stacks : list Stack) k :
  k ∈ layerOf <$> (stack ← stacks ; library ← librariesByStack i stack ;
                   [(layer, stack, library)]) →
  k = layer.
Proof.
  intros Hk. apply list_elem_of_fmap in Hk as (x & -> & Hx).
  apply list_elem_of_bind in Hx as (s & Hx & _).
  apply list_elem_of_bind in Hx as (b & Hx & _).
  apply list_elem_of_singleton in Hx. by subst.
Qed.

Lemma stackOf_stacks_elem layer (stacks : list Stack) k :
  k ∈ stackOf <$> (stack ← stacks ; library ← librariesByStack i stack ;
                   [(layer, stack, library)]) →
  k ∈ stacks.
Proof.
  intros Hk. apply list_elem_of_fmap in Hk as (x & -> & Hx).
  apply list_elem_of_bind in Hx as (s & Hx & Hs).
  apply list_elem_of_bind in Hx as (b & Hx & _).
  apply list_elem_of_singleton in Hx. by subst.
Qed.

Lemma fragments_entries (entries : list (Layer * list Stack))
    previousLayer previousStack :
  NoDup entries.*1 → NoDup (entries ≫= snd) →
  previousLayer ∉ entries.*1 → previousStack ∉ entries ≫= snd →
  "" ∉ entries ≫= snd →
  joined (renderFragment <$>
            fragments previousLayer previousStack
              ('(layer, stacks) ← entries ; stack ← stacks ;
               library ← librariesByStack i stack ; [(layer, stack, library)])) =
    joined ((λ '(layer, stacks), layerSection i layer stacks) <$> entries).
Proof.
  revert previousLayer previousStack.
  induction entries as [|[l ss] es IH]; intros pl ps Hndl Hnds Hpl Hps Hnamed; [done|].
  rewrite fmap_cons in Hndl, Hpl. cbn [fst] in Hndl, Hpl.
  rewrite bind_cons in Hnds, Hps, Hnamed. cbn [snd] in Hnds, Hps, Hnamed.
  apply NoDup_cons in Hndl as [Hl Hndl].
  apply NoDup_app in Hnds as (Hndss & Hdisj & Hnds).
  apply not_elem_of_cons in Hpl as [Hlpl Hpl].
  apply not_elem_of_app in Hps as [Hps1 Hps2].
  apply not_elem_of_app in Hnamed as [Hn1 Hn2].
  rewrite bind_cons, fmap_cons.
  rewrite fragments_app, fmap_app, joined_app.
  rewrite fragments_layer by done.
  change (joined (?p :: ?ps)) with (p +:+ joined ps).
  f_equal. apply IH; [done..| | |done].
  - destruct (lastKey_cases layerOf pl
                (stack ← ss ; library ← librariesByStack i stack ;
                 [(l, stack, library)])) as [->|Hin]; [done|].
    apply layerOf_stacks_elem in Hin. by rewrite Hin.
  - destruct (lastKey_cases stackOf ps
                (stack ← ss ; library ← librariesByStack i stack ;
                 [(l, stack, library)])) as [->|Hin]; [done|].
    apply stackOf_stacks_elem in Hin. by apply Hdisj.
Qed.

Hypothesis wf : wellFormed i.

Lemma libraryMarkdown_layout : libraryMarkdown i = layout i.
Proof.
  unfold libraryMarkdown, layout, traversal.
  apply fragments_entries; try apply wf.
  - intros Hin. by apply (layers_named i wf "").
  - intros Hin. by apply (stacks_named i wf "").
  - intros Hin. by apply (stacks_named i wf "").
Qed.

End LayoutProof.

(** X8.  The layout of the Single-File document.  For a non-empty selection
    over well-formed groupings the document is the project header followed,
    Layer by Layer in declared order, by the Layer's heading and the sections
    of its Stacks that have a Library, each the Stack's heading and the
    content of its Libraries in order, with one line feed between two Stacks
    of a Layer; a Layer without Library contributes nothing. *)
Theorem SingleFile_layout `{MarkdownBuilders} {F}
    (projectName projectDescription : string) (f : F) (w : World) :
  selectedLibraries (inputs w) ≠ [] →
  wellFormed (inputs w) →
  result (SingleFileRulesStrategy.generateRules projectName projectDescription f w) =
    [mkRulesContent
       (createProjectMarkdown projectName projectDescription +:+ layout (inputs w))
       "All Rules" "rules.mdc"].
Proof.
  intros Hsel wf.
  rewrite SingleFile_generateRules_run, decide_False by done.
  unfold result. simpl. by rewrite libraryMarkdown_layout.
Qed.

Lemma SingleFile_layout_witness :
  result (SingleFileRulesStrategy.generateRules (H:=sampleBuilders)
            "Acme" "Demo" tt sampleWorld) =
    [mkRulesContent
       (createProjectMarkdown (MarkdownBuilders:=sampleBuilders) "Acme" "Demo"
          +:+ layout (H:=sampleBuilders) sampleInputs)
       "All Rules" "rules.mdc"].
Proof.
  apply (SingleFile_layout (H:=sampleBuilders) "Acme" "Demo" tt sampleWorld).
  - simpl. discriminate.
  - apply sampleInputs_wellFormed.
Defined.

Lemma wellFormed_app i es1 es2 :
  wellFormed (withStacksByLayer i (es1 ++ es2)) →
  wellFormed (withStacksByLayer i es1) ∧ wellFormed (withStacksByLayer i es2).
Proof.
  intros [Hl Hs Hln Hsn]. simpl in *.
  rewrite fmap_app in Hl, Hln. rewrite bind_app in Hs, Hsn.
  apply NoDup_app in Hl as (Hl1 & _ & Hl2).
  apply NoDup_app in Hs as (Hs1 & _ & Hs2).
  split; split; simpl; try done.
  - intros l Hin. apply Hln, elem_of_app. by left.
  - intros s Hin. apply Hsn, elem_of_app. by left.
  - intros l Hin. apply Hln, elem_of_app. by right.
  - intros s Hin. apply Hsn, elem_of_app. by right.
Qed.

Lemma layout_app `{MarkdownBuilders} i es1 es2 :
  layout (withStacksByLayer i (es1 ++ es2)) =
    layout (withStacksByLayer i es1) +:+ layout (withStacksByLayer i es2).
Proof.
  unfold layout. cbn [stacksByLayer withStacksByLayer].
  by rewrite fmap_app, joined_app.
Qed.

(** X9.  The Single-File markdown of two lists of Layers.  Over well-formed
    groupings, [generateLibraryMarkdown] for the entries [es1 ++ es2] returns
    its markdown for [es1] followed by its markdown for [es2]: a Layer's
    part of the document does not depend on the Layers around it. *)
Theorem generateLibraryMarkdown_layers_compose `{MarkdownBuilders} {F}
    (f : F) (i : Inputs) (es1 es2 : list (Layer * list Stack)) (t : list Event) :
  wellFormed (withStacksByLayer i (es1 ++ es2)) →
  result (SingleFileRulesStrategy.generateLibraryMarkdown f
            (mkWorld (withStacksByLayer i (es1 ++ es2)) t)) =
  result (SingleFileRulesStrategy.generateLibraryMarkdown f
            (mkWorld (withStacksByLayer i es1) t))
  +:+ result (SingleFileRulesStrategy.generateLibraryMarkdown f
                (mkWorld (withStacksByLayer i es2) t)).
Proof.
  intros wf. destruct (wellFormed_app _ _ _ wf) as [wf1 wf2].
  rewrite !generateLibraryMarkdown_run. unfold result. simpl.
  rewrite !libraryMarkdown_layout by done. apply layout_app.
Qed.

Lemma generateLibraryMarkdown_layers_compose_witness :
  result (SingleFileRulesStrategy.generateLibraryMarkdown (H:=sampleBuilders) tt
            (mkWorld (withStacksByLayer sampleInputs
                        ([("Frontend", ["React"; "Vue"])] ++ [("Backend", ["Express"])]))
               [])) =
  result (SingleFileRulesStrategy.generateLibraryMarkdown (H:=sampleBuilders) tt
            (mkWorld (withStacksByLayer sampleInputs [("Frontend", ["React"; "Vue"])]) []))
  +:+ result (SingleFileRulesStrategy.generateLibraryMarkdown (H:=sampleBuilders) tt
                (mkWorld (withStacksByLayer sampleInputs [("Backend", ["Express"])]) [])).
Proof.
  apply (generateLibraryMarkdown_layers_compose (H:=sampleBuilders) tt sampleInputs).
  apply sampleInputs_wellFormed.
Defined.

(** ** The two strategies side by side *)

Lemma fragments_all_new `{MarkdownBuilders} (xs : list Visit)
    previousLayer previousStack :
  previousLayer ∉ layerOf <$> xs → previousStack ∉ stackOf <$> xs →
  NoDup (layerOf <$> xs) → NoDup (stackOf <$> xs) →
  renderFragment <$> fragments previousLayer previousStack xs =
    (λ x, renderLibrarySection (layerOf x) (stackOf x) x.2 true true) <$> xs.
Proof.
  revert previousLayer previousStack.
  induction xs as [|[[l s] b] xs IH]; intros pl ps Hpl Hps Hndl Hnds; [done|].
  rewrite !fmap_cons in *. cbn [layerOf stackOf fst snd] in *.
  apply not_elem_of_cons in Hpl as [Hpl Hpl'].
  apply not_elem_of_cons in Hps as [Hps Hps'].
  apply NoDup_cons in Hndl as [Hl Hndl].
  apply NoDup_cons in Hnds as [Hs Hnds].
  cbn [fragments]. rewrite fmap_cons. f_equal.
  - unfold renderFragment, emitted. simpl.
    assert (l ≠ pl) as Hl' by done. assert (s ≠ ps) as Hs' by done.
    apply String.eqb_neq in Hl', Hs'. rewrite Hl', Hs'. simpl.
    by rewrite string_app_nil_l.
  - by apply IH.
Qed.

(** X10.  Single-File from Multi-File.  For a non-empty selection whose
    visits all lie in different Layers and different Stacks, none with an
    empty identifier, every fragment carries both headers and no separator:
    the Single-File markdown is the project header followed by the markdowns
    of the Multi-File Library documents, in order. *)
Theorem SingleFile_joins_MultiFile `{MarkdownBuilders} {F}
    (projectName projectDescription : string) (f : F) (w : World) :
  selectedLibraries (inputs w) ≠ [] →
  NoDup (layerOf <$> traversal (inputs w)) →
  NoDup (stackOf <$> traversal (inputs w)) →
  "" ∉ layerOf <$> traversal (inputs w) →
  "" ∉ stackOf <$> traversal (inputs w) →
  result (SingleFileRulesStrategy.generateRules projectName projectDescription f w) =
    [mkRulesContent
       (createProjectMarkdown projectName projectDescription +:+
          joined (RulesBuilderTypes.markdown <$>
                    drop 1 (result (MultiFileRulesStrategy.generateRules
                                      projectName projectDescription f w))))
       "All Rules" "rules.mdc"].
Proof.
  intros Hsel Hndl Hnds Hln Hsn.
  rewrite SingleFile_generateRules_run, MultiFile_generateRules_run.
  rewrite !decide_False by done. unfold result, libraryMarkdown. simpl.
  rewrite fragments_all_new by done. rewrite drop_0, <- list_fmap_compose.
  do 4 f_equal. apply list_fmap_ext. intros _ [[l s] b] _.
  unfold MultiFileRulesStrategy.buildRulesContent, layerOf, stackOf. simpl.
  by destruct (createLibraryFileMetadata l s b).
Qed.

Lemma SingleFile_joins_MultiFile_witness :
  result (SingleFileRulesStrategy.generateRules (H:=sampleBuilders)
            "Acme" "Demo" tt separateLayersWorld) =
    [mkRulesContent
       (createProjectMarkdown (MarkdownBuilders:=sampleBuilders) "Acme" "Demo" +:+
          joined (RulesBuilderTypes.markdown <$>
                    drop 1 (result (MultiFileRulesStrategy.generateRules
                                      (H:=sampleBuilders) "Acme" "Demo" tt
                                      separateLayersWorld))))
       "All Rules" "rules.mdc"].
Proof.
  apply (SingleFile_joins_MultiFile (H:=sampleBuilders) "Acme" "Demo" tt
           separateLayersWorld).
  - simpl. discriminate.
  - by apply (bool_decide_unpack _).
  - by apply (bool_decide_unpack _).
  - by apply (bool_decide_unpack _).
  - by apply (bool_decide_unpack _).
Defined.
